(** * Sandbox generation orchestrator

    A shallow embedding of the sandbox generator script
    ([sbInit], [withLocalRegistry], [addStorybook], [runCommand],
    [improveNPMPerformance], [runGenerators], [generate] and the
    command-line action) together with the properties its specification
    states about it. *)

From Stdlib Require Import String Ascii List Bool Arith ZArith Lia.
Import ListNotations.

Local Open Scope list_scope.
Local Open Scope string_scope.

Set Implicit Arguments.

(** ** JavaScript string primitives used by the script *)

(** Strings are sequences of characters; the script searches them for
    ASCII patterns only and compares [indexOf] with [-1] only. *)
Module JsString.

(** [s.startsWith(p)] *)
Definition startsWith (s p : string) : bool := String.prefix p s.

(** [s.includes(needle)] *)
Fixpoint includes (s needle : string) : bool :=
  startsWith s needle ||
  match s with
  | EmptyString => false
  | String _ t => includes t needle
  end.

(** [s.indexOf(needle)]: position of the leftmost occurrence, [-1]
    when there is none. *)
Fixpoint indexOf (s needle : string) : Z :=
  if startsWith s needle then 0%Z
  else
    match s with
    | EmptyString => (-1)%Z
    | String _ t =>
        let i := indexOf t needle in
        if (i =? -1)%Z then (-1)%Z else (i + 1)%Z
    end.

(** [s.slice(n)] *)
Fixpoint drop (n : nat) (s : string) : string :=
  match n, s with
  | O, _ => s
  | S k, String _ t => drop k t
  | S _, EmptyString => EmptyString
  end.

(** The text put in place of one match when the replacement is a
    string ([GetSubstitution] without captures): [$$] stands for a
    dollar sign, [$&] for the matched text, [$`] for the text before
    the match and [$'] for the text after it; every other character,
    a dollar sign before anything else included, stands for itself. *)
Fixpoint substitute (rep matched before after : string) : string :=
  match rep with
  | EmptyString => EmptyString
  | String c r =>
      if Ascii.eqb c "$" then
        match r with
        | EmptyString => String c EmptyString
        | String d r' =>
            if Ascii.eqb d "$" then String "$" (substitute r' matched before after)
            else if Ascii.eqb d "&" then matched ++ substitute r' matched before after
            else if Ascii.eqb d "`" then before ++ substitute r' matched before after
            else if Ascii.eqb d "'" then after ++ substitute r' matched before after
            else String c (substitute r matched before after)
        end
      else String c (substitute r matched before after)
  end.

(** [s.replaceAll("", rep)]: the empty pattern matches before every
    character and at the end; [before] is the text already passed. *)
Fixpoint intersperse (before s rep : string) : string :=
  substitute rep "" before s ++
  match s with
  | EmptyString => EmptyString
  | String c t => String c (intersperse (before ++ String c "") t rep)
  end.

(** Left-to-right scan of [s.replaceAll(pat, rep)] for a non-empty
    [pat]; [skip] counts the characters of the current match that are
    still to be dropped, [before] is the text already passed. *)
Fixpoint replaceAll_scan (skip : nat) (before s pat rep : string) : string :=
  match s with
  | EmptyString => EmptyString
  | String c t =>
      match skip with
      | S k => replaceAll_scan k (before ++ String c "") t pat rep
      | O =>
          if startsWith s pat
          then substitute rep pat before (drop (String.length pat) s)
               ++ replaceAll_scan (String.length pat - 1)
                    (before ++ String c "") t pat rep
          else String c (replaceAll_scan 0 (before ++ String c "") t pat rep)
      end
  end.

(** [s.replaceAll(pat, rep)] with a string pattern and a string
    replacement. *)
Definition replaceAll (s pat rep : string) : string :=
  match pat with
  | EmptyString => intersperse "" s rep
  | _ => replaceAll_scan 0 "" s pat rep
  end.

(** The same scan with the replacement inserted as it is; it agrees
    with [replaceAll] for a replacement without a dollar sign. *)
Fixpoint plain_scan (skip : nat) (s pat rep : string) : string :=
  match s with
  | EmptyString => EmptyString
  | String c t =>
      match skip with
      | S k => plain_scan k t pat rep
      | O =>
          if startsWith s pat
          then rep ++ plain_scan (String.length pat - 1) t pat rep
          else String c (plain_scan 0 t pat rep)
      end
  end.

Definition plain_replaceAll (s pat rep : string) : string :=
  plain_scan 0 s pat rep.

(** [parts.join(sep)] *)
Definition join (parts : list string) (sep : string) : string :=
  String.concat sep parts.

End JsString.

Import JsString.

(** [path.join(a, b)] for the operands the script passes: [a] is a
    normalised path without a trailing separator and [b] is a relative
    name, so that the result is [a/b]. *)
Definition path_join (a b : string) : string := a ++ "/" ++ b.

(** ** Template descriptors *)

Record Expected := { renderer : string }.

(** [GeneratorConfig & { dirName: string }] *)
Record GeneratorConfig := {
  dirName : string;
  name : string;
  script : string;
  expected : Expected
}.

(** The placeholder of an init script that names the before directory. *)
Definition BEFORE_DIR_TOKEN : string := "{{beforeDir}}".

(** ** Installer flags ([runGenerators], [sbInit]) *)

(** The flags [runGenerators] derives from [expected.renderer]. *)
Definition renderer_flags (e : Expected) : list string :=
  if String.eqb (renderer e) "@storybook/html" then ["--type html"]
  else if String.eqb (renderer e) "@storybook/server" then ["--type server"]
  else [].

(** [const fullFlags = ['--yes', ...(flags || [])]] *)
Definition fullFlags (flags : option (list string)) : list string :=
  "--yes" :: match flags with Some fl => fl | None => [] end.

(** The command line [sbInit] hands to [runCommand]. *)
Definition sbInit_command (sbCliBinaryPath : string)
    (flags : option (list string)) : string :=
  sbCliBinaryPath ++ " init " ++ join (fullFlags flags) " ".

(** ** Directory trees and the filtered copy of the before snapshot *)

#[local] Unset Elimination Schemes.
Inductive Node : Type :=
| File (fname : string)
| Dir (dname : string) (items : list Node).
#[local] Set Elimination Schemes.

(** The filter [runGenerators] gives to [copy]. *)
Definition before_filter (src : string) : bool :=
  (indexOf src "node_modules" =? -1)%Z && (indexOf src ".git" =? -1)%Z.

(** Recursive copy of the entries of directory [src] under a filter: the
    filter sees the source path of every entry, and an entry it rejects
    is skipped together with everything below it. *)
Fixpoint copy_node (filter : string -> bool) (src : string) (n : Node)
  : list Node :=
  match n with
  | File f => if filter (path_join src f) then [File f] else []
  | Dir d items =>
      if filter (path_join src d)
      then [Dir d (flat_map (copy_node filter (path_join src d)) items)]
      else []
  end.

Definition copy_items (filter : string -> bool) (src : string)
    (items : list Node) : list Node :=
  flat_map (copy_node filter src) items.

(** [copy(src, dest, { filter })] on a directory: nothing is copied when
    the filter rejects [src] itself. *)
Definition copy_dir (filter : string -> bool) (src : string)
    (items : list Node) : option (list Node) :=
  if filter src then Some (copy_items filter src items) else None.

(** Names of all entries of a tree (every path component below the root). *)
Fixpoint node_names (n : Node) : list string :=
  match n with
  | File f => [f]
  | Dir d items => d :: flat_map node_names items
  end.

Definition tree_names (items : list Node) : list string :=
  flat_map node_names items.

(** Full paths of all entries of the tree rooted at [base]. *)
Fixpoint node_paths (base : string) (n : Node) : list string :=
  match n with
  | File f => [path_join base f]
  | Dir d items =>
      path_join base d :: flat_map (node_paths (path_join base d)) items
  end.

Definition tree_paths (base : string) (items : list Node) : list string :=
  flat_map (node_paths base) items.

(** ** Errors, results and the external calls of the script *)

(** The values thrown in this script are the [Error] objects raised by
    its collaborators (a failed command, a failed file operation, a
    failed package-manager call).  An [Error] object is truthy, so the
    test [if (error)] of [withLocalRegistry] holds exactly when an
    error was caught; a local [let error] that was never assigned is
    [None]. *)
Inductive Error : Type := MkError (message : string).

Inductive Result (A : Type) : Type :=
| Ok (a : A)
| Failed (e : Error).
Arguments Ok {A} a.
Arguments Failed {A} e.

(** The execa options the script sets; an absent key is [None]. *)
Record ExecaOptions := {
  cwd : option string;
  timeout : option Z;
  stdout : option string;
  stderr : option string;
  shell : option bool;
  env : list (string * string)
}.

Definition override {A : Type} (base over : option A) : option A :=
  match over with Some _ => over | None => base end.

(** Object spread [{ ...base, ...over }] on execa options. *)
Definition spread (base over : ExecaOptions) : ExecaOptions :=
  {| cwd := override (cwd base) (cwd over);
     timeout := override (timeout base) (timeout over);
     stdout := override (stdout base) (stdout over);
     stderr := override (stderr base) (stderr over);
     shell := override (shell base) (shell over);
     env := match env over with [] => env base | e => e end |}.

(** What a shutdown listener of this script does when it runs: a list of
    [npm config set key value] commands. *)
Definition Hook : Type := list (string * string).

(** The calls the script makes to its collaborators. *)
Inductive Call : Type :=
| ExecaCommand (command : string) (options : ExecaOptions)
    (* execaCommand(command, options) *)
| NpmConfigGet (key : string)
    (* execaCommand('npm config get <key>') *)
| NpmConfigSet (key value : string)
    (* execSync / execaCommand('npm config set <key> <value>') *)
| GetPackageManager (dir : string)
    (* JsPackageManagerFactory.getPackageManager({}, dir) *)
| GetRegistryURL
    (* packageManager.getRegistryURL() *)
| SetRegistryURL (url : option string)
    (* packageManager.setRegistryURL(url) *)
| BeforeShutdown (listener : Hook)
    (* beforeShutdown(listener) *)
| EmptyDir (dir : string)
| TempDirectory
    (* directory() of tempy *)
| EnsureDir (dir : string)
| Copy (src dest : string) (filter : option (string -> bool))
| CopyFile (src dest : string)
| Move (src dest : string)
| Remove (path : string)
| WriteFile (path contents : string)
| GetEnv (key : string).
    (* process.env[key] *)

Inductive Reply : Type :=
| RUnit
| RString (s : string)
| ROptString (o : option string).

Definition reply_string (r : Reply) : string :=
  match r with RString s => s | _ => "" end.

Definition reply_opt (r : Reply) : option string :=
  match r with ROptString o => o | RString s => Some s | RUnit => None end.

(** ** Programs: asynchronous functions as trees of external calls

    [Vis c k] performs the call [c] and continues with [k] on its
    outcome; every [Vis] is a point where the function waits for a
    collaborator. *)
Inductive Prog (A : Type) : Type :=
| Ret (a : A)
| Throw (e : Error)
| Vis (c : Call) (k : Result Reply -> Prog A).
Arguments Ret {A} a.
Arguments Throw {A} e.
Arguments Vis {A} c k.

Fixpoint bind {A B : Type} (p : Prog A) (f : A -> Prog B) : Prog B :=
  match p with
  | Ret a => f a
  | Throw e => Throw e
  | Vis c k => Vis c (fun o => bind (k o) f)
  end.

(** [try { p } catch (e) { h e }] *)
Fixpoint try_catch {A : Type} (p : Prog A) (h : Error -> Prog A) : Prog A :=
  match p with
  | Ret a => Ret a
  | Throw e => h e
  | Vis c k => Vis c (fun o => try_catch (k o) h)
  end.

Declare Scope prog_scope.
Delimit Scope prog_scope with prog.
Notation "x <- p ;; q" := (bind p (fun x => q))
  (at level 61, p at next level, right associativity) : prog_scope.
Notation "p ;; q" := (bind p (fun _ => q))
  (at level 61, right associativity) : prog_scope.
Local Open Scope prog_scope.

(** A call whose failure is thrown to the caller ([await f(...)]). *)
Definition call (c : Call) : Prog Reply :=
  Vis c (fun o => match o with Ok r => Ret r | Failed e => Throw e end).

Definition call_ (c : Call) : Prog unit := call c ;; Ret tt.

Definition when (b : bool) (p : Prog unit) : Prog unit :=
  if b then p else Ret tt.

(** [Promise.all] over the functions handed to [pLimit(1)] (p-limit is
    a library outside this repository), as the command-line action sees
    it: the limiter starts a function only
    when the previous one has settled, and the first rejection rejects
    the whole promise; the action then exits the process before a later
    function completes a call. *)
Fixpoint limit_all (tasks : list (Prog unit)) : Prog unit :=
  match tasks with
  | [] => Ret tt
  | t :: rest => t ;; limit_all rest
  end.

(** ** The environment of the process *)

(** The file-system operations of fs-extra and tempy the script uses,
    over directory trees. *)
Record FsOps (FS : Type) : Type := {
  fs_emptyDir : string -> FS -> FS;
  fs_tempDirectory : FS -> string * FS;
  fs_ensureDir : string -> FS -> FS;
  fs_readTree : FS -> string -> option (list Node);
  fs_putTree : string -> list Node -> FS -> FS;
  fs_putFile : string -> FS -> FS;
  fs_remove : string -> FS -> FS
}.

(** State outside the process: the npm configuration ([npm config get]
    answers for every key), the registry the package manager points at,
    the environment variables and the file system. *)
Record World (FS : Type) : Type := {
  npm_config : string -> string;
  registry_url : option string;
  process_env : string -> option string;
  fs : FS
}.

(** What the collaborators decide: the effect and outcome of an external
    command, and whether the package manager fails to set the registry. *)
Record External (FS : Type) : Type := {
  execa : string -> ExecaOptions -> World FS -> World FS * Result string;
  setRegistryURL_error : option string -> World FS -> option Error
}.

(** The process: its environment, the listeners registered with
    [beforeShutdown], and the calls made so far, oldest first. *)
Record Proc (FS : Type) : Type := {
  world : World FS;
  shutdownListeners : list Hook;
  calls : list Call
}.

(** Constants and helpers imported by the script. *)
Record Constants : Type := {
  BEFORE_DIR_NAME : string;
  AFTER_DIR_NAME : string;
  SCRIPT_TIMEOUT : Z;
  REPROS_DIRECTORY : string;
  LOCAL_REGISTRY_URL : string;
  sbCliBinaryPath : string;
  stackblitzConfigPath : string;
  readmePath : string;
  getStackblitzUrl : string -> string;
  renderTemplate : string -> string -> string -> string
}.

(** [OptionValues<typeof options>] *)
Record OptionValues : Type := {
  template : option string;
  localRegistry : option bool;
  debug : option bool
}.

(** Truthiness of a value that is a string or [undefined]. *)
Definition truthy (v : option string) : bool :=
  match v with
  | Some s => negb (String.eqb s "")
  | None => false
  end.

Definition set_key (m : string -> string) (k v : string) : string -> string :=
  fun k' => if String.eqb k' k then v else m k'.

Section Generator.

Variable FS : Type.
Variable fsops : FsOps FS.
Variable ext : External FS.
Variable K : Constants.

Definition with_npm_config (w : World FS) (m : string -> string) : World FS :=
  {| npm_config := m; registry_url := registry_url w;
     process_env := process_env w; fs := fs w |}.

Definition with_registry_url (w : World FS) (u : option string) : World FS :=
  {| npm_config := npm_config w; registry_url := u;
     process_env := process_env w; fs := fs w |}.

Definition with_fs (w : World FS) (f : FS) : World FS :=
  {| npm_config := npm_config w; registry_url := registry_url w;
     process_env := process_env w; fs := f |}.

Definition ENOENT (path : string) : Error :=
  MkError ("ENOENT: no such file or directory, " ++ path).

(** Modelled from the spec: the package-manager abstraction
    ([JsPackageManager], whose code is not among the sources) exposes
    [getRegistryURL() -> url] and [setRegistryURL(url)]: the registry
    URL is one piece of state, the getter reads it and the setter
    writes it.  The setter may fail, and then writes nothing. *)
Definition packageManager_getRegistryURL (w : World FS)
  : World FS * Result Reply :=
  (w, Ok (ROptString (registry_url w))).

Definition packageManager_setRegistryURL (url : option string) (w : World FS)
  : World FS * Result Reply :=
  match setRegistryURL_error ext url w with
  | Some e => (w, Failed e)
  | None => (with_registry_url w url, Ok RUnit)
  end.

(** Modelled from the spec: the shutdown hook registry
    ([beforeShutdown], whose code is not among the sources) is a
    process-wide list of cleanup actions; registering one appends it. *)
Definition register_listener (listeners : list Hook) (c : Call) : list Hook :=
  match c with
  | BeforeShutdown h => listeners ++ [h]
  | _ => listeners
  end.

(** The effect and outcome of a call on the environment.  The
    [npm config] commands and the package-manager lookup are taken to
    complete: what is proved of the calls that follow them holds once
    they have.  External commands run through [runCommand], the
    registry setter and a copy or move from a missing directory can
    fail. *)
Definition handle (c : Call) (w : World FS) : World FS * Result Reply :=
  match c with
  | ExecaCommand command options =>
      let (w', r) := execa ext command options w in
      (w', match r with Ok out => Ok (RString out) | Failed e => Failed e end)
  | NpmConfigGet key => (w, Ok (RString (npm_config w key)))
  | NpmConfigSet key value =>
      (with_npm_config w (set_key (npm_config w) key value), Ok RUnit)
  | GetPackageManager _ => (w, Ok RUnit)
  | GetRegistryURL => packageManager_getRegistryURL w
  | SetRegistryURL url => packageManager_setRegistryURL url w
  | BeforeShutdown _ => (w, Ok RUnit)
  | EmptyDir dir => (with_fs w (fs_emptyDir fsops dir (fs w)), Ok RUnit)
  | TempDirectory =>
      let (p, f) := fs_tempDirectory fsops (fs w) in
      (with_fs w f, Ok (RString p))
  | EnsureDir dir => (with_fs w (fs_ensureDir fsops dir (fs w)), Ok RUnit)
  | Copy src dest filter =>
      match fs_readTree fsops (fs w) src with
      | None => (w, Failed (ENOENT src))
      | Some items =>
          match copy_dir (match filter with Some f => f | None => fun _ => true end)
                  src items with
          | Some copied => (with_fs w (fs_putTree fsops dest copied (fs w)), Ok RUnit)
          | None => (w, Ok RUnit)
          end
      end
  | CopyFile _ dest => (with_fs w (fs_putFile fsops dest (fs w)), Ok RUnit)
  | Move src dest =>
      match fs_readTree fsops (fs w) src with
      | None => (w, Failed (ENOENT src))
      | Some items =>
          (with_fs w (fs_remove fsops src (fs_putTree fsops dest items (fs w))),
           Ok RUnit)
      end
  | Remove path => (with_fs w (fs_remove fsops path (fs w)), Ok RUnit)
  | WriteFile path _ => (with_fs w (fs_putFile fsops path (fs w)), Ok RUnit)
  | GetEnv key => (w, Ok (ROptString (process_env w key)))
  end.

(** One call of the process: it is recorded, a [beforeShutdown]
    listener is pushed on the list, and the environment answers. *)
Definition perform (c : Call) (s : Proc FS) : Proc FS * Result Reply :=
  let (w', o) := handle c (world s) in
  ({| world := w';
      shutdownListeners := register_listener (shutdownListeners s) c;
      calls := calls s ++ [c] |}, o).

(** Running a program to its end when nothing else runs in between. *)
Fixpoint run {A : Type} (p : Prog A) (s : Proc FS) : Proc FS * Result A :=
  match p with
  | Ret a => (s, Ok a)
  | Throw e => (s, Failed e)
  | Vis c k => let (s', o) := perform c s in run (k o) s'
  end.

(** *** The script *)

Definition execaCommand (command : string) (options : ExecaOptions)
  : Prog string :=
  r <- call (ExecaCommand command options) ;; Ret (reply_string r).

Definition npmConfigGet (key : string) : Prog string :=
  r <- call (NpmConfigGet key) ;; Ret (reply_string r).

Definition getRegistryURL : Prog (option string) :=
  r <- call GetRegistryURL ;; Ret (reply_opt r).

(** [runCommand(script, options, debug = false)] *)
Definition runCommand (script : string) (options : ExecaOptions)
    (debug : option bool) : Prog string :=
  let debug := match debug with Some d => d | None => false end in
  execaCommand script
    (spread {| cwd := None; timeout := None;
               stdout := Some (if debug then "inherit" else "ignore");
               stderr := None; shell := Some true; env := [] |}
            options).

(** [sbInit(cwd, flags, debug)] *)
Definition sbInit (cwd : string) (flags : option (list string))
    (debug : option bool) : Prog unit :=
  let env := [("STORYBOOK_DISABLE_TELEMETRY", "true")] in
  runCommand (sbInit_command (sbCliBinaryPath K) flags)
    {| cwd := Some cwd; timeout := None; stdout := None; stderr := None;
       shell := None; env := env |} debug ;;
  Ret tt.

(** [withLocalRegistry(packageManager, action)].  The [catch] block
    only stores the error, so the [finally] block always runs next.
    Both calls of [setRegistryURL] are taken to complete where they
    stand: a failure of the first one is caught like a failure of the
    action. *)
Definition withLocalRegistry (action : Prog unit) : Prog unit :=
  prevUrl <- getRegistryURL ;;
  error <- try_catch
             (call_ (SetRegistryURL (Some (LOCAL_REGISTRY_URL K))) ;;
              action ;;
              Ret None)
             (fun e => Ret (Some e)) ;;
  call_ (SetRegistryURL prevUrl) ;;
  match error with
  | Some e => Throw e
  | None => Ret tt
  end.

Definition PRERELEASE_KEY : string := "angular-cli/prerelease".

(** [addStorybook({ dir, localRegistry, flags, debug, dirName })] *)
Definition addStorybook (dir : string) (localRegistry : bool)
    (flags : option (list string)) (debug : option bool)
    (dirName : string) : Prog unit :=
  call_ (GetPackageManager dir) ;;
  legacyPeerDeps <- npmConfigGet "audit" ;;
  when (String.eqb dirName PRERELEASE_KEY)
    (call_ (NpmConfigSet "legacy-peer-deps" "true") ;;
     call_ (BeforeShutdown [("legacy-peer-deps", legacyPeerDeps)])) ;;
  (if localRegistry
   then withLocalRegistry (sbInit dir flags debug)
   else sbInit dir flags debug) ;;
  when (String.eqb dirName PRERELEASE_KEY)
    (call_ (NpmConfigSet "legacy-peer-deps" legacyPeerDeps)).

(** [addDocumentation(dir, { name, dirName })] *)
Definition addDocumentation (dir name dirName : string) : Prog unit :=
  call_ (CopyFile (stackblitzConfigPath K) (path_join dir ".stackblitzrc")) ;;
  let stackblitzUrl := getStackblitzUrl K dirName in
  let contents := renderTemplate K (readmePath K) name stackblitzUrl in
  call_ (WriteFile (path_join dir "README.md") contents).

(** [improveNPMPerformance()] *)
Definition improveNPMPerformance : Prog unit :=
  preferOffline <- npmConfigGet "prefer-offline" ;;
  audit <- npmConfigGet "audit" ;;
  call_ (NpmConfigSet "prefer-offline" "true") ;;
  call_ (NpmConfigSet "audit" "false") ;;
  call_ (BeforeShutdown [("prefer-offline", preferOffline); ("audit", audit)]).

(** The scaffolding step of a builder: the two modes of running the
    init script. *)
Definition scaffold (script tempDir : string) (debug : option bool)
  : Prog unit :=
  let tempInitDir := path_join tempDir (BEFORE_DIR_NAME K) in
  if includes script BEFORE_DIR_TOKEN then
    let scriptWithBeforeDir :=
      replaceAll script BEFORE_DIR_TOKEN (BEFORE_DIR_NAME K) in
    runCommand scriptWithBeforeDir
      {| cwd := Some tempDir;
         timeout := Some (SCRIPT_TIMEOUT K);
         stdout := None;
         stderr := Some "inherit";
         shell := None;
         env := [("npm_config_user_agent",
                  if startsWith scriptWithBeforeDir "yarn" then "yarn"
                  else if startsWith scriptWithBeforeDir "pnpm" then "pnpm"
                  else "npm")] |} debug ;;
    Ret tt
  else
    call_ (EnsureDir tempInitDir) ;;
    runCommand script
      {| cwd := Some tempInitDir; timeout := Some (SCRIPT_TIMEOUT K);
         stdout := None; stderr := None; shell := None; env := [] |} debug ;;
    Ret tt.

(** The function [runGenerators] hands to the limiter for one
    generator. *)
Definition generator_task (localRegistry : bool) (debug : option bool)
    (g : GeneratorConfig) : Prog unit :=
  let flags := renderer_flags (expected g) in
  let baseDir := path_join (REPROS_DIRECTORY K) (dirName g) in
  let beforeDir := path_join baseDir (BEFORE_DIR_NAME K) in
  let afterDir := path_join baseDir (AFTER_DIR_NAME K) in
  call_ (EmptyDir baseDir) ;;
  tempDir <- (r <- call TempDirectory ;; Ret (reply_string r)) ;;
  let tempInitDir := path_join tempDir (BEFORE_DIR_NAME K) in
  scaffold (script g) tempDir debug ;;
  call_ (Copy tempInitDir beforeDir (Some before_filter)) ;;
  addStorybook tempInitDir localRegistry (Some flags) debug (dirName g) ;;
  call_ (Move tempInitDir afterDir) ;;
  addDocumentation afterDir (name g) (dirName g) ;;
  cleanup <- (r <- call (GetEnv "CLEANUP_SANDBOX_NODE_MODULES") ;;
              Ret (reply_opt r)) ;;
  when (truthy cleanup) (call_ (Remove (path_join afterDir "node_modules"))) ;;
  call_ (Remove tempDir).

(** [runGenerators(generators, localRegistry = true, debug = false)] *)
Definition runGenerators (generators : list GeneratorConfig)
    (localRegistry : option bool) (debug : option bool) : Prog unit :=
  let localRegistry := match localRegistry with Some b => b | None => true end in
  improveNPMPerformance ;;
  limit_all (map (generator_task localRegistry debug) generators).

(** The catalog [sandboxTemplates]: entries in the order of
    [Object.entries], the key first. *)
Definition Catalog : Type := list GeneratorConfig.

(** [generate({ template, localRegistry, debug })] *)
Definition generatorConfigs (sandboxTemplates : Catalog)
    (template : option string) : list GeneratorConfig :=
  filter (fun g =>
            if truthy template
            then String.eqb (dirName g)
                   (match template with Some t => t | None => "" end)
            else true)
         sandboxTemplates.

Definition generate (sandboxTemplates : Catalog) (o : OptionValues)
  : Prog unit :=
  runGenerators (generatorConfigs sandboxTemplates (template o))
    (localRegistry o) (debug o).

(** The command-line action: [process.exit(1)] in the [catch] handler,
    [process.exit(0)] in the [then] handler that follows it.  The
    result is the final process state and the exit code. *)
Definition action (sandboxTemplates : Catalog) (optionValues : OptionValues)
    (s : Proc FS) : Proc FS * Z :=
  let (s', r) := run (generate sandboxTemplates optionValues) s in
  match r with
  | Failed _ => (s', 1%Z)
  | Ok _ => (s', 0%Z)
  end.

(** *** States named in the properties *)

(** The process after a call that left the environment unchanged. *)
Definition logged (s : Proc FS) (c : Call) : Proc FS :=
  {| world := world s; shutdownListeners := shutdownListeners s;
     calls := calls s ++ [c] |}.

(** The process in which the action wrapped by [withLocalRegistry]
    starts: the registry has been read and points at the local one. *)
Definition swapped (s : Proc FS) : Proc FS :=
  {| world := with_registry_url (world s) (Some (LOCAL_REGISTRY_URL K));
     shutdownListeners := shutdownListeners s;
     calls := (calls s ++ [GetRegistryURL])
              ++ [SetRegistryURL (Some (LOCAL_REGISTRY_URL K))] |}.

(** The process after the package manager has set the registry to
    [url]. *)
Definition registry_set (s : Proc FS) (url : option string) : Proc FS :=
  {| world := with_registry_url (world s) url;
     shutdownListeners := shutdownListeners s;
     calls := calls s ++ [SetRegistryURL url] |}.

(** The process after [npm config set key value]. *)
Definition npm_set (s : Proc FS) (key value : string) : Proc FS :=
  {| world := with_npm_config (world s) (set_key (npm_config (world s)) key value);
     shutdownListeners := shutdownListeners s;
     calls := calls s ++ [NpmConfigSet key value] |}.

(** The process after [beforeShutdown(listener)]. *)
Definition hooked (s : Proc FS) (listener : Hook) : Proc FS :=
  {| world := world s;
     shutdownListeners := shutdownListeners s ++ [listener];
     calls := calls s ++ [BeforeShutdown listener] |}.

(** The installation step of [addStorybook]. *)
Definition install (dir : string) (localRegistry : bool)
    (flags : option (list string)) (debug : option bool) : Prog unit :=
  if localRegistry
  then withLocalRegistry (sbInit dir flags debug)
  else sbInit dir flags debug.

(** The process in which the installation of the prerelease variant
    begins: the package manager has been looked up, the value to
    restore read, the flag set and the listener registered. *)
Definition installing (dir : string) (s : Proc FS) : Proc FS :=
  let legacyPeerDeps := npm_config (world s) "audit" in
  hooked
    (npm_set
       (logged (logged s (GetPackageManager dir)) (NpmConfigGet "audit"))
       "legacy-peer-deps" "true")
    [("legacy-peer-deps", legacyPeerDeps)].

(** The process after [improveNPMPerformance]. *)
Definition tuned (s : Proc FS) : Proc FS :=
  hooked
    (npm_set
       (npm_set
          (logged (logged s (NpmConfigGet "prefer-offline"))
                  (NpmConfigGet "audit"))
          "prefer-offline" "true")
       "audit" "false")
    [("prefer-offline", npm_config (world s) "prefer-offline");
     ("audit", npm_config (world s) "audit")].

End Generator.

(** ** A file system for closed examples: directories by path *)

Record FlatFS : Type := {
  next_temp : nat;
  dirs : list (string * list Node);
  files : list string
}.

Definition below (p q : string) : bool :=
  String.eqb q p || startsWith q (p ++ "/").

Fixpoint lookup_dir (ds : list (string * list Node)) (p : string)
  : option (list Node) :=
  match ds with
  | [] => None
  | (q, items) :: rest => if String.eqb q p then Some items else lookup_dir rest p
  end.

Definition drop_below (p : string) (f : FlatFS) : FlatFS :=
  {| next_temp := next_temp f;
     dirs := filter (fun d => negb (below p (fst d))) (dirs f);
     files := filter (fun q => negb (below p q)) (files f) |}.

Definition put_dir (p : string) (items : list Node) (f : FlatFS) : FlatFS :=
  {| next_temp := next_temp f;
     dirs := (p, items) :: filter (fun d => negb (String.eqb (fst d) p)) (dirs f);
     files := files f |}.

Fixpoint temp_name (n : nat) : string :=
  match n with
  | O => "/tmp/sandbox"
  | S k => temp_name k ++ "x"
  end.

Definition flat_fs : FsOps FlatFS :=
  {| fs_emptyDir := fun p f => put_dir p [] (drop_below p f);
     fs_tempDirectory := fun f =>
       (temp_name (next_temp f),
        put_dir (temp_name (next_temp f)) []
          {| next_temp := S (next_temp f); dirs := dirs f; files := files f |});
     fs_ensureDir := fun p f =>
       match lookup_dir (dirs f) p with
       | Some _ => f
       | None => put_dir p [] f
       end;
     fs_readTree := fun f p => lookup_dir (dirs f) p;
     fs_putTree := put_dir;
     fs_putFile := fun p f =>
       {| next_temp := next_temp f; dirs := dirs f; files := p :: files f |};
     fs_remove := drop_below |}.

Definition empty_fs : FlatFS := {| next_temp := 0; dirs := []; files := [] |}.

(** ** Closed examples: a catalog, an environment and collaborators *)

Module Example.

Definition K0 : Constants :=
  {| BEFORE_DIR_NAME := "before";
     AFTER_DIR_NAME := "after";
     SCRIPT_TIMEOUT := 600000;
     REPROS_DIRECTORY := "/repros";
     LOCAL_REGISTRY_URL := "http://localhost:6001";
     sbCliBinaryPath := "/code/lib/cli/bin/index.js";
     stackblitzConfigPath := "/scripts/sandbox/templates/.stackblitzrc";
     readmePath := "/scripts/sandbox/templates/item.ejs";
     getStackblitzUrl := fun d => "https://stackblitz.com/" ++ d;
     renderTemplate := fun _ n u => n ++ ": " ++ u |}.

Definition w0 : World FlatFS :=
  {| npm_config := fun k =>
       if String.eqb k "audit" then "true"
       else if String.eqb k "legacy-peer-deps" then "false"
       else if String.eqb k "prefer-offline" then "false"
       else "undefined";
     registry_url := Some "https://registry.npmjs.org/";
     process_env := fun _ => None;
     fs := empty_fs |}.

Definition p0 : Proc FlatFS :=
  {| world := w0; shutdownListeners := []; calls := [] |}.

(** The same process on a machine whose npm configuration has
    [legacy-peer-deps] switched on. *)
Definition p_legacy : Proc FlatFS :=
  {| world :=
       {| npm_config := set_key (npm_config w0) "legacy-peer-deps" "true";
          registry_url := registry_url w0;
          process_env := process_env w0;
          fs := fs w0 |};
     shutdownListeners := [];
     calls := [] |}.

(** What a successful command leaves in the directory it works in. *)
Definition project : list Node :=
  [ File "package.json";
    File ".gitignore";
    Dir ".git" [File "HEAD"];
    Dir "node_modules" [Dir "react" [File "index.js"]];
    Dir "node_modules_backup" [File "index.js"];
    Dir "src" [File "main.ts"; Dir "node_modules" [File "x.js"]] ].

(** Collaborators under which a command fails exactly when its text
    contains [bad], and a successful command fills the directory named
    [before] on its command line, or else its working directory; the
    package manager sets every registry when [restores] holds, and only
    the local one otherwise. *)
Definition collaborators (bad : string) (restores : bool) : External FlatFS :=
  {| execa := fun command options w =>
       if includes command bad
       then (w, Failed (MkError ("Command failed: " ++ command)))
       else
         match cwd options with
         | Some d =>
             let target :=
               if includes command " before" then path_join d "before" else d in
             (with_fs w (put_dir target project (fs w)), Ok "")
         | None => (w, Ok "")
         end;
     setRegistryURL_error := fun url _ =>
       if restores then None
       else
         match url with
         | Some u =>
             if String.eqb u (LOCAL_REGISTRY_URL K0) then None
             else Some (MkError "npm config set registry failed")
         | None => Some (MkError "npm config delete registry failed")
         end |}.

(** Only the scaffolding tool of the [broken] template fails. *)
Definition ext0 : External FlatFS := collaborators "broken-tool" true.

(** The installer fails. *)
Definition ext_install_fails : External FlatFS := collaborators " init " true.

(** The installer fails and the registry cannot be set back. *)
Definition ext_restore_fails : External FlatFS := collaborators " init " false.

Definition react : GeneratorConfig :=
  {| dirName := "react-vite/default-ts";
     name := "React Vite (TS)";
     script := "npm create vite@latest --yes . -- --template react-ts";
     expected := {| renderer := "@storybook/react" |} |}.

Definition html : GeneratorConfig :=
  {| dirName := "html-webpack/default";
     name := "HTML Webpack5";
     script := "yarn create webpack5-html {{beforeDir}}";
     expected := {| renderer := "@storybook/html" |} |}.

Definition prerelease : GeneratorConfig :=
  {| dirName := "angular-cli/prerelease";
     name := "Angular CLI (Prerelease)";
     script := "npx -p @angular/cli@next ng new angular-v16 --directory . --routing=true";
     expected := {| renderer := "@storybook/angular" |} |}.

Definition broken : GeneratorConfig :=
  {| dirName := "broken/default";
     name := "Broken";
     script := "npx broken-tool .";
     expected := {| renderer := "@storybook/react" |} |}.

Definition all_options : OptionValues :=
  {| template := None; localRegistry := Some false; debug := None |}.

(** Whether a recorded call is the external command [command]. *)
Definition is_command (command : string) (c : Call) : bool :=
  match c with
  | ExecaCommand c' _ => String.eqb c' command
  | _ => false
  end.

End Example.

(** ** Steps of a builder and of a shutdown listener *)

(** A call that is not an external command run through [runCommand]. *)
Definition not_a_command (c : Call) : Prop :=
  match c with
  | ExecaCommand _ _ => False
  | _ => True
  end.

Section BuilderSteps.

Variable FS : Type.
Variable fsops : FsOps FS.
Variable ext : External FS.
Variable K : Constants.

(** What a listener registered by the script does when it is called:
    one [execSync('npm config set key value')] per entry, in order. *)
Fixpoint run_listener (h : Hook) : Prog unit :=
  match h with
  | [] => Ret tt
  | (key, value) :: rest => call_ (NpmConfigSet key value) ;; run_listener rest
  end.

(** The directories of a builder. *)
Definition baseDir_of (g : GeneratorConfig) : string :=
  path_join (REPROS_DIRECTORY K) (dirName g).

Definition beforeDir_of (g : GeneratorConfig) : string :=
  path_join (baseDir_of g) (BEFORE_DIR_NAME K).

Definition afterDir_of (g : GeneratorConfig) : string :=
  path_join (baseDir_of g) (AFTER_DIR_NAME K).

(** The temp root [directory()] hands to the builder of [g] started in
    [s], and the init directory below it. *)
Definition tempDir_of (g : GeneratorConfig) (s : Proc FS) : string :=
  fst (fs_tempDirectory fsops (fs_emptyDir fsops (baseDir_of g) (fs (world s)))).

Definition tempInitDir_of (g : GeneratorConfig) (s : Proc FS) : string :=
  path_join (tempDir_of g s) (BEFORE_DIR_NAME K).

(** The process in which the scaffolding of the builder of [g] starts:
    the output directory has been emptied and the temp root made. *)
Definition prepared (g : GeneratorConfig) (s : Proc FS) : Proc FS :=
  {| world :=
       with_fs
         (with_fs (world s) (fs_emptyDir fsops (baseDir_of g) (fs (world s))))
         (snd (fs_tempDirectory fsops
                 (fs_emptyDir fsops (baseDir_of g) (fs (world s)))));
     shutdownListeners := shutdownListeners s;
     calls := (calls s ++ [EmptyDir (baseDir_of g)]) ++ [TempDirectory] |}.

(** The snapshot call of the builder of [g] started in [s]. *)
Definition snapshot_of (g : GeneratorConfig) (s : Proc FS) : Call :=
  Copy (tempInitDir_of g s) (beforeDir_of g) (Some before_filter).

(** The last steps of a builder, from the move of the init directory
    on. *)
Definition promote (g : GeneratorConfig) (tempDir : string) : Prog unit :=
  let tempInitDir := path_join tempDir (BEFORE_DIR_NAME K) in
  let afterDir := afterDir_of g in
  call_ (Move tempInitDir afterDir) ;;
  addDocumentation K afterDir (name g) (dirName g) ;;
  cleanup <- (r <- call (GetEnv "CLEANUP_SANDBOX_NODE_MODULES") ;;
              Ret (reply_opt r)) ;;
  when (truthy cleanup) (call_ (Remove (path_join afterDir "node_modules"))) ;;
  call_ (Remove tempDir).

(** The calls of [promote], given the value of
    [CLEANUP_SANDBOX_NODE_MODULES]. *)
Definition promote_calls (g : GeneratorConfig) (tempDir : string)
    (cleanup : option string) : list Call :=
  [ Move (path_join tempDir (BEFORE_DIR_NAME K)) (afterDir_of g);
    CopyFile (stackblitzConfigPath K) (path_join (afterDir_of g) ".stackblitzrc");
    WriteFile (path_join (afterDir_of g) "README.md")
      (renderTemplate K (readmePath K) (name g) (getStackblitzUrl K (dirName g)));
    GetEnv "CLEANUP_SANDBOX_NODE_MODULES" ]
  ++ (if truthy cleanup
      then [Remove (path_join (afterDir_of g) "node_modules")]
      else [])
  ++ [Remove tempDir].

End BuilderSteps.

(** Collaborators whose commands all succeed and leave no file. *)
Definition ext_silent : External FlatFS :=
  {| execa := fun _ _ w => (w, Ok "");
     setRegistryURL_error := fun _ _ => None |}.

(** ** The manager application: which layout is rendered *)

From Stdlib Require Import QArith.
Close Scope Q_scope.

Module App.

(** A JavaScript number: a finite double is a rational; the other
    values are [NaN] and the two infinities. *)
Inductive JsNumber : Type :=
| NaN
| Infinity (positive : bool)
| Finite (q : Q).

(** [width] and [height] of [useResizeDetector]: a number or
    [undefined]. *)
Definition Dimension : Type := option JsNumber.

(** [!!d] *)
Definition truthy_number (d : Dimension) : bool :=
  match d with
  | Some (Finite q) => negb (Qeq_bool q 0%Q)
  | Some (Infinity _) => true
  | Some NaN => false
  | None => false
  end.

(** [d < k] and [d >= k] for a finite [k]; a comparison with [NaN] or
    [undefined] is false. *)
Definition less_than (d : Dimension) (k : Q) : bool :=
  match d with
  | Some (Finite q) => negb (Qle_bool k q)
  | Some (Infinity positive) => negb positive
  | Some NaN => false
  | None => false
  end.

Definition at_least (d : Dimension) (k : Q) : bool :=
  match d with
  | Some (Finite q) => Qle_bool k q
  | Some (Infinity positive) => positive
  | Some NaN => false
  | None => false
  end.

Section Render.

Variables ViewMode LayoutOptions Page PanelCount : Type.

(** [AppProps] *)
Record AppProps : Type := {
  viewMode : ViewMode;
  layout : LayoutOptions;
  panelCount : PanelCount;
  pages : list Page;
  newLayout : option bool
}.

(** The children of the [View] element, with the props they receive. *)
Inductive Element : Type :=
| Global
| Symbols
| Mobile (viewMode : ViewMode) (options : LayoutOptions) (pages : list Page)
| Desktop (viewMode : ViewMode) (options : LayoutOptions)
    (width height : Dimension) (panelCount : PanelCount) (pages : list Page)
| Layout.

(** [cond && element] as a child: rendered when [cond] is [true],
    nothing when it is [false] or [null]. *)
Definition and_then (cond : option bool) (e : Element) : list Element :=
  match cond with
  | Some true => [e]
  | _ => []
  end.

(** The body of [App], for the size [useResizeDetector] reports. *)
Definition render (props : AppProps) (width height : Dimension) : list Element :=
  let newLayout := match newLayout props with Some b => b | None => false end in
  let isReady := truthy_number width && truthy_number height in
  let isMobile := if isReady then Some (less_than width 600%Q) else None in
  let isDesktop := if isReady then Some (at_least width 600%Q) else None in
  [Global; Symbols]
  ++ (if negb newLayout
      then and_then isMobile
             (Mobile (viewMode props) (layout props) (pages props))
           ++ and_then isDesktop
                (Desktop (viewMode props) (layout props) width height
                   (panelCount props) (pages props))
      else [])
  ++ and_then (Some newLayout) Layout.

End Render.

End App.

(** Induction on trees, with the hypothesis for every item of a
    directory. *)
Fixpoint Node_tree_ind (P : Node -> Prop)
    (HF : forall f, P (File f))
    (HD : forall d items, Forall P items -> P (Dir d items))
    (n : Node) : P n :=
  match n with
  | File f => HF f
  | Dir d items =>
      HD d items
        ((fix all (l : list Node) : Forall P l :=
            match l with
            | [] => Forall_nil P
            | x :: r => Forall_cons x (Node_tree_ind HF HD x) (all r)
            end) items)
  end.

(** * Properties *)

(** ** Strings *)

Example replaceAll_placeholder :
  replaceAll "yarn create webpack5-html {{beforeDir}}" BEFORE_DIR_TOKEN "before"
  = "yarn create webpack5-html before".
Proof. reflexivity. Qed.

Example replaceAll_twice :
  replaceAll "mkdir {{beforeDir}} && cd {{beforeDir}}" BEFORE_DIR_TOKEN "before"
  = "mkdir before && cd before".
Proof. reflexivity. Qed.

Example replaceAll_overlap : replaceAll "aaa" "aa" "b" = "ba".
Proof. reflexivity. Qed.

Example replaceAll_empty_pattern : replaceAll "abc" "" "-" = "-a-b-c-".
Proof. reflexivity. Qed.

Example indexOf_found : indexOf "/tmp/x/node_modules/y" "node_modules" = 7%Z.
Proof. reflexivity. Qed.

Example indexOf_absent : indexOf "/tmp/x/src/y" ".git" = (-1)%Z.
Proof. reflexivity. Qed.

Example before_filter_gitignore :
  before_filter "/tmp/x/before/.gitignore" = false.
Proof. reflexivity. Qed.

Section StringFacts.

Lemma startsWith_nil : forall s, startsWith s "" = true.
Proof. destruct s; reflexivity. Qed.

Lemma startsWith_app : forall p s, startsWith (p ++ s) p = true.
Proof.
  unfold startsWith.
  induction p as [|c p IH]; intros s; simpl.
  - destruct s; reflexivity.
  - destruct (Ascii.ascii_dec c c) as [_|n]; [apply IH | contradiction].
Qed.

Lemma startsWith_weaken : forall p a b,
  startsWith a p = true -> startsWith (a ++ b) p = true.
Proof.
  unfold startsWith.
  induction p as [|c p IH]; intros a b H; simpl in *.
  - destruct (a ++ b); reflexivity.
  - destruct a as [|c' a]; simpl in *; [discriminate H|].
    destruct (Ascii.ascii_dec c c'); [auto | discriminate H].
Qed.

Lemma includes_weaken : forall a b n,
  includes a n = true -> includes (a ++ b) n = true.
Proof.
  induction a as [|c a IH]; intros b n H; simpl in *.
  - rewrite orb_false_r in H.
    destruct n; [|discriminate H].
    destruct b; reflexivity.
  - apply orb_true_iff in H. apply orb_true_iff.
    destruct H as [H|H].
    + left. apply (startsWith_weaken _ (String c a) b H).
    + right. auto.
Qed.

Lemma includes_skip : forall a b n,
  includes b n = true -> includes (a ++ b) n = true.
Proof.
  induction a as [|c a IH]; intros b n H; simpl; auto.
  rewrite (IH _ _ H). apply orb_true_r.
Qed.

Lemma includes_unfold : forall s n,
  includes s n =
  startsWith s n ||
  match s with EmptyString => false | String _ t => includes t n end.
Proof. destruct s; reflexivity. Qed.

Lemma includes_self_app : forall n b, includes (n ++ b) n = true.
Proof.
  intros n b. rewrite includes_unfold, startsWith_app. reflexivity.
Qed.

Lemma includes_infix : forall a n b, includes (a ++ n ++ b) n = true.
Proof. intros. apply includes_skip, includes_self_app. Qed.

Lemma includes_prefix_false : forall a b n,
  includes (a ++ b) n = false -> includes a n = false.
Proof.
  intros a b n H. destruct (includes a n) eqn:E; auto.
  rewrite (includes_weaken _ b _ E) in H. discriminate.
Qed.

Lemma indexOf_unfold : forall s n,
  indexOf s n =
  if startsWith s n then 0%Z
  else match s with
       | EmptyString => (-1)%Z
       | String _ t =>
           if (indexOf t n =? -1)%Z then (-1)%Z else (indexOf t n + 1)%Z
       end.
Proof. destruct s; reflexivity. Qed.

Lemma indexOf_lower : forall s n, (-1 <= indexOf s n)%Z.
Proof.
  induction s as [|c s IH]; intros n; rewrite indexOf_unfold;
    destruct (startsWith _ n); try lia.
  specialize (IH n). destruct (indexOf s n =? -1)%Z; lia.
Qed.

Lemma indexOf_includes : forall s n,
  (indexOf s n =? -1)%Z = negb (includes s n).
Proof.
  induction s as [|c s IH]; intros n;
    rewrite indexOf_unfold, includes_unfold;
    destruct (startsWith _ n); try reflexivity.
  rewrite orb_false_l, <- IH. pose proof (indexOf_lower s n) as Hge.
  destruct (indexOf s n =? -1)%Z eqn:E; [reflexivity|].
  apply Z.eqb_neq in E. apply Z.eqb_neq. lia.
Qed.

Lemma before_filter_includes : forall src,
  before_filter src =
  negb (includes src "node_modules") && negb (includes src ".git").
Proof.
  intros src. unfold before_filter. now rewrite !indexOf_includes.
Qed.

Lemma before_filter_prefix : forall a b,
  before_filter (a ++ b) = true -> before_filter a = true.
Proof.
  intros a b. rewrite !before_filter_includes, !andb_true_iff, !negb_true_iff.
  intros [H1 H2]. split; eapply includes_prefix_false; eauto.
Qed.

Lemma startsWith_split : forall p s,
  startsWith s p = true -> exists r, s = p ++ r.
Proof.
  unfold startsWith.
  induction p as [|a p IH]; intros s H.
  - exists s; reflexivity.
  - destruct s as [|b s]; simpl in H; [discriminate H|].
    destruct (Ascii.ascii_dec a b); [|discriminate H]. subst.
    destruct (IH _ H) as [r Hr]. exists r. simpl. now rewrite <- Hr.
Qed.

Lemma includes_split : forall s n,
  includes s n = true -> exists a b, s = a ++ n ++ b.
Proof.
  induction s as [|c s IH]; intros n H; rewrite includes_unfold in H;
    apply orb_true_iff in H; destruct H as [H|H]; try discriminate H.
  - apply startsWith_split in H. destruct H as [r Hr].
    exists "", r. exact Hr.
  - apply startsWith_split in H. destruct H as [r Hr].
    exists "", r. exact Hr.
  - destruct (IH _ H) as (a & b & E).
    exists (String c a), b. simpl. now rewrite <- E.
Qed.

Lemma append_assoc : forall a b c : string, (a ++ b) ++ c = a ++ b ++ c.
Proof.
  induction a as [|x a IH]; intros b c; simpl; [reflexivity|].
  now rewrite IH.
Qed.

Lemma includes_trans : forall src sub n,
  includes src sub = true -> includes sub n = true ->
  includes src n = true.
Proof.
  intros src sub n H1 H2.
  apply includes_split in H1. destruct H1 as (a & b & ->).
  apply includes_skip, includes_weaken, H2.
Qed.

Lemma before_filter_rejects : forall src sub,
  includes sub "node_modules" = true \/ includes sub ".git" = true ->
  includes src sub = true ->
  before_filter src = false.
Proof.
  intros src sub Hsub Hin. rewrite before_filter_includes.
  destruct Hsub as [H|H]; rewrite (includes_trans _ _ _ Hin H); simpl;
    [reflexivity | apply andb_false_r].
Qed.

End StringFacts.

(** ** The filtered copy *)

Section CopyFacts.

Lemma append_nil_r : forall s : string, s ++ "" = s.
Proof. induction s as [|c s IH]; simpl; [reflexivity | now rewrite IH]. Qed.

Lemma path_join_assoc : forall a b r, path_join a b ++ r = a ++ ("/" ++ b ++ r).
Proof.
  intros a b r. unfold path_join.
  rewrite append_assoc. f_equal.
Qed.

(** Every path of a tree extends the path of its root. *)
Lemma node_paths_extend : forall n base p,
  In p (node_paths base n) -> exists r, p = base ++ r.
Proof.
  induction n as [f|d items IH] using Node_tree_ind; intros base p Hin;
    simpl in Hin.
  - destruct Hin as [<-|[]]. eexists. reflexivity.
  - destruct Hin as [<-|Hin]; [eexists; reflexivity|].
    apply in_flat_map in Hin. destruct Hin as (x & Hx & Hp).
    rewrite Forall_forall in IH.
    destruct (IH x Hx _ _ Hp) as [r ->].
    eexists. apply path_join_assoc.
Qed.

(** Every name of a tree ends one of its paths. *)
Lemma node_names_paths : forall n base x,
  In x (node_names n) ->
  exists p, In p (node_paths base n) /\ includes p x = true.
Proof.
  induction n as [f|d items IH] using Node_tree_ind; intros base x Hin;
    simpl in Hin.
  - destruct Hin as [<-|[]]. exists (path_join base f). split; [now left|].
    unfold path_join. rewrite <- (append_nil_r f) at 1.
    rewrite <- append_assoc. apply includes_infix.
  - destruct Hin as [<-|Hin].
    + exists (path_join base d). split; [now left|].
      unfold path_join. rewrite <- (append_nil_r d) at 1.
      rewrite <- append_assoc. apply includes_infix.
    + apply in_flat_map in Hin. destruct Hin as (y & Hy & Hx).
      rewrite Forall_forall in IH.
      destruct (IH y Hy (path_join base d) x Hx) as (p & Hp & Hi).
      exists p. split; [|exact Hi].
      simpl. right. apply in_flat_map. exists y. auto.
Qed.

Lemma filter_none : forall (A : Type) (f : A -> bool) (l : list A),
  (forall x, In x l -> f x = false) -> filter f l = [].
Proof.
  induction l as [|x l IH]; intros H; simpl; [reflexivity|].
  rewrite (H x (or_introl eq_refl)). apply IH. intros y Hy. apply H. now right.
Qed.

(** The copy keeps exactly the entries whose source path passes the
    filter. *)
Lemma copy_node_paths : forall n src,
  flat_map (node_paths src) (copy_node before_filter src n) =
  filter before_filter (node_paths src n).
Proof.
  induction n as [f|d items IH] using Node_tree_ind; intros src; simpl.
  - destruct (before_filter (path_join src f)); reflexivity.
  - destruct (before_filter (path_join src d)) eqn:E; simpl.
    + rewrite app_nil_r. f_equal.
      induction items as [|x items IHi]; simpl; [reflexivity|].
      inversion IH as [|? ? Hx Hr]; subst.
      rewrite flat_map_app, filter_app, Hx, (IHi Hr). reflexivity.
    + symmetry. apply filter_none. intros p Hp.
      apply in_flat_map in Hp. destruct Hp as (x & _ & Hp).
      apply node_paths_extend in Hp. destruct Hp as [r ->].
      destruct (before_filter (path_join src d ++ r)) eqn:E'; [|reflexivity].
      apply before_filter_prefix in E'. congruence.
Qed.

Lemma copy_items_paths : forall items src,
  tree_paths src (copy_items before_filter src items) =
  filter before_filter (tree_paths src items).
Proof.
  unfold tree_paths, copy_items.
  induction items as [|x items IH]; intros src; simpl; [reflexivity|].
  rewrite flat_map_app, filter_app, copy_node_paths, IH. reflexivity.
Qed.

Lemma copy_items_path_passes : forall items src p,
  In p (tree_paths src (copy_items before_filter src items)) ->
  before_filter p = true.
Proof.
  intros items src p. rewrite copy_items_paths, filter_In. tauto.
Qed.

Lemma copy_items_name_clean : forall items src x,
  In x (tree_names (copy_items before_filter src items)) ->
  includes x "node_modules" = false /\ includes x ".git" = false.
Proof.
  intros items src x Hin.
  unfold tree_names in Hin. apply in_flat_map in Hin.
  destruct Hin as (n & Hn & Hx).
  destruct (node_names_paths n src x Hx) as (p & Hp & Hi).
  assert (Hpass : before_filter p = true).
  { apply (copy_items_path_passes items src).
    unfold tree_paths. apply in_flat_map. exists n. auto. }
  split.
  - destruct (includes x "node_modules") eqn:E; [|reflexivity].
    rewrite (before_filter_rejects p x (or_introl E) Hi) in Hpass.
    discriminate.
  - destruct (includes x ".git") eqn:E; [|reflexivity].
    rewrite (before_filter_rejects p x (or_intror E) Hi) in Hpass.
    discriminate.
Qed.

End CopyFacts.

(** ** Running programs *)

Section RunFacts.

Variable FS : Type.
Variable fsops : FsOps FS.
Variable ext : External FS.
Variable K : Constants.

Local Open Scope list_scope.


Lemma run_bind : forall (A B : Type) (p : Prog A) (f : A -> Prog B) s,
  run fsops ext (bind p f) s =
  let (s', r) := run fsops ext p s in
  match r with
  | Ok a => run fsops ext (f a) s'
  | Failed e => (s', Failed e)
  end.
Proof.
  induction p as [a|e|c k IH]; intros f s; simpl; try reflexivity.
  destruct (perform fsops ext c s) as [s' o]. apply IH.
Qed.

Lemma run_try_catch : forall (A : Type) (p : Prog A) (h : Error -> Prog A) s,
  run fsops ext (try_catch p h) s =
  let (s', r) := run fsops ext p s in
  match r with
  | Ok a => (s', Ok a)
  | Failed e => run fsops ext (h e) s'
  end.
Proof.
  induction p as [a|e|c k IH]; intros h s; simpl; try reflexivity.
  destruct (perform fsops ext c s) as [s' o]. apply IH.
Qed.

(** A run only adds calls to the record, and listeners to the list. *)
Lemma perform_calls : forall c s,
  calls (fst (perform fsops ext c s)) = (calls s ++ [c])%list.
Proof.
  intros c s. unfold perform.
  destruct (handle fsops ext c (world s)); reflexivity.
Qed.

Lemma run_calls_extend : forall (A : Type) (p : Prog A) s,
  exists l, calls (fst (run fsops ext p s)) = (calls s ++ l)%list.
Proof.
  induction p as [a|e|c k IH]; intros s; simpl.
  - exists []. now rewrite app_nil_r.
  - exists []. now rewrite app_nil_r.
  - pose proof (perform_calls c s) as Hc.
    destruct (perform fsops ext c s) as [s' o]. simpl in Hc.
    destruct (IH o s') as [l Hl]. exists (c :: l).
    rewrite Hl, Hc, <- app_assoc. reflexivity.
Qed.

Lemma run_limit_all_cons : forall t rest s,
  run fsops ext (limit_all (t :: rest)) s =
  let (s', r) := run fsops ext t s in
  match r with
  | Ok _ => run fsops ext (limit_all rest) s'
  | Failed e => (s', Failed e)
  end.
Proof. intros. simpl. apply run_bind. Qed.

(** The tasks before the first failure run, the ones after it do not. *)
Lemma run_limit_all_app : forall pre post s,
  run fsops ext (limit_all (pre ++ post)) s =
  let (s', r) := run fsops ext (limit_all pre) s in
  match r with
  | Ok _ => run fsops ext (limit_all post) s'
  | Failed e => (s', Failed e)
  end.
Proof.
  induction pre as [|t pre IH]; intros post s.
  - simpl. reflexivity.
  - change ((t :: pre) ++ post) with (t :: (pre ++ post)).
    rewrite !run_limit_all_cons.
    destruct (run fsops ext t s) as [s1 [[]|e]]; [apply IH | reflexivity].
Qed.

(** *** [withLocalRegistry] *)

Lemma withLocalRegistry_run : forall action s,
  run fsops ext (withLocalRegistry K action) s =
  let prev := registry_url (world s) in
  let '(s1, r1) :=
    match setRegistryURL_error ext (Some (LOCAL_REGISTRY_URL K)) (world s) with
    | Some e =>
        (logged (logged s GetRegistryURL)
                (SetRegistryURL (Some (LOCAL_REGISTRY_URL K))), Failed e)
    | None => run fsops ext action (swapped K s)
    end in
  match setRegistryURL_error ext prev (world s1) with
  | Some e' => (logged s1 (SetRegistryURL prev), Failed e')
  | None => (registry_set s1 prev, r1)
  end.
Proof.
  intros action s. unfold withLocalRegistry. cbn.
  unfold perform at 1. cbn. unfold packageManager_setRegistryURL.
  destruct (setRegistryURL_error ext (Some (LOCAL_REGISTRY_URL K)) (world s))
    as [e|] eqn:E1; cbn.
  - unfold perform. cbn. unfold packageManager_setRegistryURL, logged; cbn.
    destruct (setRegistryURL_error ext (registry_url (world s)) (world s));
      reflexivity.
  - rewrite run_bind, run_try_catch, run_bind. fold (swapped K s).
    destruct (run fsops ext action (swapped K s)) as [s1 [[]|ea]]; cbn;
      unfold perform; cbn; unfold packageManager_setRegistryURL;
      destruct (setRegistryURL_error ext (registry_url (world s)) (world s1));
      reflexivity.
Qed.

End RunFacts.

(** ** The registry swap *)

Section RegistrySwap.

Variable FS : Type.
Variable fsops : FsOps FS.
Variable ext : External FS.
Variable K : Constants.

Local Open Scope list_scope.

(** C2.  [withLocalRegistry] reads the registry URL before it changes
    it, and when the wrapped action has completed, with a result or
    with an error, the registry URL is set back to exactly the value
    read; the outcome of the action, its error included, is then the
    outcome of [withLocalRegistry].  (The package manager performs
    both of its set calls.) *)
Theorem withLocalRegistry_restores : forall action s s1 r,
  setRegistryURL_error ext (Some (LOCAL_REGISTRY_URL K)) (world s) = None ->
  run fsops ext action (swapped K s) = (s1, r) ->
  setRegistryURL_error ext (registry_url (world s)) (world s1) = None ->
  let out := run fsops ext (withLocalRegistry K action) s in
  registry_url (world (fst out)) = registry_url (world s) /\
  snd out = r /\
  exists mid,
    calls (fst out) =
    calls s
    ++ [GetRegistryURL; SetRegistryURL (Some (LOCAL_REGISTRY_URL K))]
    ++ mid
    ++ [SetRegistryURL (registry_url (world s))].
Proof.
  intros action s s1 r Hlocal Hact Hrestore out. subst out.
  rewrite withLocalRegistry_run, Hlocal, Hact. cbv beta iota zeta.
  rewrite Hrestore. cbn.
  repeat split.
  destruct (run_calls_extend fsops ext action (swapped K s)) as [mid Hmid].
  rewrite Hact in Hmid. cbn in Hmid.
  exists mid. rewrite Hmid, <- !app_assoc. reflexivity.
Qed.

(** C4 (as the code has it).  When the wrapped action fails and the
    restoration of the registry fails too, the caller receives the
    error of the restoration; the error of the action is dropped. *)
Theorem withLocalRegistry_restore_error_wins : forall action s s1 ea er,
  setRegistryURL_error ext (Some (LOCAL_REGISTRY_URL K)) (world s) = None ->
  run fsops ext action (swapped K s) = (s1, Failed ea) ->
  setRegistryURL_error ext (registry_url (world s)) (world s1) = Some er ->
  run fsops ext (withLocalRegistry K action) s =
  (logged s1 (SetRegistryURL (registry_url (world s))), Failed er).
Proof.
  intros action s s1 ea er Hlocal Hact Hrestore.
  rewrite withLocalRegistry_run, Hlocal, Hact. cbv beta iota zeta.
  rewrite Hrestore. reflexivity.
Qed.

End RegistrySwap.

Lemma withLocalRegistry_restores_witness :
  let out :=
    run flat_fs Example.ext_install_fails
      (withLocalRegistry Example.K0
         (sbInit Example.K0 "/tmp/sandbox/before" None None))
      Example.p0 in
  registry_url (world (fst out)) = Some "https://registry.npmjs.org/" /\
  snd out =
  Failed (MkError "Command failed: /code/lib/cli/bin/index.js init --yes").
Proof.
  destruct (@withLocalRegistry_restores FlatFS flat_fs
              Example.ext_install_fails Example.K0
              (sbInit Example.K0 "/tmp/sandbox/before" None None) Example.p0
              _ _ eq_refl eq_refl eq_refl) as (H1 & H2 & _).
  split; [exact H1 | exact H2].
Defined.

Lemma withLocalRegistry_restore_error_wins_witness :
  snd (run flat_fs Example.ext_restore_fails
         (withLocalRegistry Example.K0
            (sbInit Example.K0 "/tmp/sandbox/before" None None))
         Example.p0)
  = Failed (MkError "npm config set registry failed").
Proof.
  rewrite (@withLocalRegistry_restore_error_wins FlatFS flat_fs
             Example.ext_restore_fails Example.K0
             (sbInit Example.K0 "/tmp/sandbox/before" None None) Example.p0
             _ _ _ eq_refl eq_refl eq_refl).
  reflexivity.
Defined.

(** C4 as stated fails: the installer throws, the restoration throws
    too, and the caller receives the restoration error, not the
    installer's. *)
Lemma restore_error_replaces_action_error :
  let action := sbInit Example.K0 "/tmp/sandbox/before" None None in
  let out :=
    run flat_fs Example.ext_restore_fails
      (withLocalRegistry Example.K0 action) Example.p0 in
  snd (run flat_fs Example.ext_restore_fails action (swapped Example.K0 Example.p0))
  = Failed (MkError "Command failed: /code/lib/cli/bin/index.js init --yes") /\
  snd out = Failed (MkError "npm config set registry failed") /\
  snd out <>
  Failed (MkError "Command failed: /code/lib/cli/bin/index.js init --yes").
Proof.
  cbv zeta. split; [reflexivity | split; [reflexivity | discriminate]].
Qed.

(** ** Installing into the prerelease variant *)

Section AddStorybook.

Variable FS : Type.
Variable fsops : FsOps FS.
Variable ext : External FS.
Variable K : Constants.

Local Open Scope list_scope.

Lemma addStorybook_prerelease_run : forall dir lr flags debug s,
  run fsops ext (addStorybook K dir lr flags debug PRERELEASE_KEY) s =
  let (s1, r) := run fsops ext (install K dir lr flags debug) (installing dir s) in
  match r with
  | Ok _ => (npm_set s1 "legacy-peer-deps" (npm_config (world s) "audit"), Ok tt)
  | Failed e => (s1, Failed e)
  end.
Proof.
  intros dir lr flags debug s. unfold addStorybook.
  rewrite run_bind. cbn -[install sbInit withLocalRegistry].
  rewrite run_bind.
  change (if lr then withLocalRegistry K (sbInit K dir flags debug)
          else sbInit K dir flags debug) with (install K dir lr flags debug).
  match goal with
  | |- context [run fsops ext (install K dir lr flags debug) ?st] =>
      change st with (installing dir s)
  end.
  destruct (run fsops ext (install K dir lr flags debug) (installing dir s))
    as [s1 [[]|e]]; reflexivity.
Qed.

(** C3 (as the code has it).  For the prerelease variant the flag
    [legacy-peer-deps] is [true] when the installation begins and a
    shutdown listener that sets it again is registered by then; after a
    successful installation the flag is explicitly set to the value the
    listener carries; when the installation fails its error propagates
    and the explicit step is skipped. *)
Theorem addStorybook_prerelease_flag : forall dir lr flags debug s s1 r,
  run fsops ext (install K dir lr flags debug) (installing dir s) = (s1, r) ->
  let out := run fsops ext (addStorybook K dir lr flags debug PRERELEASE_KEY) s in
  npm_config (world (installing dir s)) "legacy-peer-deps" = "true" /\
  exists v,
    shutdownListeners (installing dir s) =
    shutdownListeners s ++ [[("legacy-peer-deps", v)]] /\
    match r with
    | Ok _ =>
        out = (npm_set s1 "legacy-peer-deps" v, Ok tt) /\
        npm_config (world (fst out)) "legacy-peer-deps" = v
    | Failed e => out = (s1, Failed e)
    end.
Proof.
  intros dir lr flags debug s s1 r Hrun out. subst out.
  rewrite addStorybook_prerelease_run, Hrun.
  split; [reflexivity|].
  exists (npm_config (world s) "audit").
  split; [reflexivity|].
  destruct r as [[]|e]; [split; reflexivity | reflexivity].
Qed.

End AddStorybook.

Lemma addStorybook_prerelease_flag_witness :
  let out :=
    run flat_fs Example.ext0
      (addStorybook Example.K0 "/tmp/sandbox/before" false None None
         PRERELEASE_KEY) Example.p0 in
  exists v,
    shutdownListeners (installing "/tmp/sandbox/before" Example.p0) =
    [[("legacy-peer-deps", v)]] /\
    snd out = Ok tt /\
    npm_config (world (fst out)) "legacy-peer-deps" = v.
Proof.
  destruct (@addStorybook_prerelease_flag FlatFS flat_fs Example.ext0 Example.K0
              "/tmp/sandbox/before" false None None Example.p0 _ _ eq_refl)
    as (_ & v & Hl & Hout & Hv).
  exists v. split; [exact Hl|]. split; [|exact Hv].
  cbv zeta. rewrite Hout. reflexivity.
Defined.

(** C3 as stated fails: when the installer fails, [addStorybook] leaves
    the flag at [true], not at the value it had before. *)
Lemma prerelease_flag_not_restored_on_failure :
  let out :=
    run flat_fs Example.ext_install_fails
      (addStorybook Example.K0 "/tmp/sandbox/before" false None None
         PRERELEASE_KEY) Example.p0 in
  npm_config (world Example.p0) "legacy-peer-deps" = "false" /\
  snd out =
  Failed (MkError "Command failed: /code/lib/cli/bin/index.js init --yes") /\
  npm_config (world (fst out)) "legacy-peer-deps" = "true" /\
  npm_config (world (fst out)) "legacy-peer-deps" <>
  npm_config (world Example.p0) "legacy-peer-deps".
Proof.
  cbv zeta. repeat split; try reflexivity. discriminate.
Qed.

(** ** The orchestrator and its exit code *)

Section Orchestrator.

Variable FS : Type.
Variable fsops : FsOps FS.
Variable ext : External FS.
Variable K : Constants.

Local Open Scope list_scope.

Lemma improveNPMPerformance_run : forall s,
  run fsops ext improveNPMPerformance s = (tuned s, Ok tt).
Proof. reflexivity. Qed.

(** The functions [runGenerators] hands to the limiter. *)
Lemma runGenerators_run : forall generators lr dbg s,
  run fsops ext (runGenerators K generators lr dbg) s =
  run fsops ext
    (limit_all
       (map (generator_task K (match lr with Some b => b | None => true end) dbg)
            generators))
    (tuned s).
Proof.
  intros. unfold runGenerators. rewrite run_bind, improveNPMPerformance_run.
  reflexivity.
Qed.

Lemma generatorConfigs_all : forall catalog,
  generatorConfigs catalog None = catalog.
Proof.
  induction catalog as [|g catalog IH]; simpl; [reflexivity|].
  f_equal. exact IH.
Qed.

Lemma generatorConfigs_missing : forall catalog t,
  t <> "" ->
  (forall g, In g catalog -> dirName g <> t) ->
  generatorConfigs catalog (Some t) = [].
Proof.
  intros catalog t Ht Hmiss. unfold generatorConfigs.
  apply filter_none. intros g Hg. simpl.
  destruct (String.eqb_spec t "") as [E|_]; [contradiction|]. simpl.
  apply String.eqb_neq. auto.
Qed.

(** C1 (as the code has it).  The tasks run one after the other in
    catalog order.  When all of them succeed the process exits with
    code 0.  When one fails, the run is rejected with its error in the
    state that task left: no task queued after it runs, and the process
    exits with code 1. *)
Theorem action_exit_code : forall catalog o s,
  let tasks :=
    map (generator_task K
           (match localRegistry o with Some b => b | None => true end)
           (debug o))
        (generatorConfigs catalog (template o)) in
  (forall s',
      run fsops ext (limit_all tasks) (tuned s) = (s', Ok tt) ->
      action fsops ext K catalog o s = (s', 0%Z)) /\
  (forall pre t post s1 s2 e,
      tasks = pre ++ t :: post ->
      run fsops ext (limit_all pre) (tuned s) = (s1, Ok tt) ->
      run fsops ext t s1 = (s2, Failed e) ->
      action fsops ext K catalog o s = (s2, 1%Z)).
Proof.
  intros catalog o s tasks. unfold action, generate.
  rewrite runGenerators_run. fold tasks. split.
  - intros s' Hrun. rewrite Hrun. reflexivity.
  - intros pre t post s1 s2 e Htasks Hpre Ht.
    rewrite Htasks, run_limit_all_app, Hpre, run_limit_all_cons, Ht.
    reflexivity.
Qed.

(** C9 (as the code has it).  A requested template key that is not in
    the catalog leaves nothing to run: after the npm settings have been
    tuned no builder runs, and the process exits with code 0. *)
Theorem action_missing_template : forall catalog t lr dbg s,
  t <> "" ->
  (forall g, In g catalog -> dirName g <> t) ->
  action fsops ext K catalog
    {| template := Some t; localRegistry := lr; debug := dbg |} s
  = (tuned s, 0%Z).
Proof.
  intros catalog t lr dbg s Ht Hmiss. unfold action, generate. cbn [template localRegistry debug].
  rewrite runGenerators_run, (generatorConfigs_missing catalog Ht Hmiss).
  reflexivity.
Qed.

End Orchestrator.

Lemma action_exit_code_witness :
  snd (action flat_fs Example.ext0 Example.K0 [Example.react; Example.html]
         Example.all_options Example.p0) = 0%Z /\
  snd (action flat_fs Example.ext0 Example.K0
         [Example.react; Example.broken; Example.html]
         Example.all_options Example.p0) = 1%Z.
Proof.
  split.
  - destruct (@action_exit_code FlatFS flat_fs Example.ext0 Example.K0
                [Example.react; Example.html] Example.all_options Example.p0)
      as [Hok _].
    erewrite Hok; [reflexivity | vm_compute; reflexivity].
  - destruct (@action_exit_code FlatFS flat_fs Example.ext0 Example.K0
                [Example.react; Example.broken; Example.html]
                Example.all_options Example.p0) as [_ Hfail].
    erewrite (Hfail [generator_task Example.K0 false None Example.react]
                    (generator_task Example.K0 false None Example.broken)
                    [generator_task Example.K0 false None Example.html]);
      [reflexivity | reflexivity | vm_compute; reflexivity
       | vm_compute; reflexivity].
Defined.

(** C1 as stated fails: with a failing task the process exits with
    code 1, and the task queued after the failing one never runs its
    init script. *)
Lemma failing_task_rejects_run :
  let out :=
    action flat_fs Example.ext0 Example.K0
      [Example.react; Example.broken; Example.html]
      Example.all_options Example.p0 in
  snd out = 1%Z /\
  existsb (Example.is_command (script Example.react)) (calls (fst out)) = true /\
  existsb (Example.is_command (script Example.broken)) (calls (fst out)) = true /\
  existsb (Example.is_command "yarn create webpack5-html before")
    (calls (fst out)) = false.
Proof.
  cbv zeta. repeat split; vm_compute; reflexivity.
Qed.

Lemma action_missing_template_witness :
  action flat_fs Example.ext0 Example.K0 [Example.react; Example.html]
    {| template := Some "vue3-vite/default-ts";
       localRegistry := Some false; debug := None |} Example.p0
  = (tuned Example.p0, 0%Z).
Proof.
  apply action_missing_template.
  - discriminate.
  - intros g [<-|[<-|[]]]; discriminate.
Defined.

(** The value [addStorybook] writes back is the answer of
    [npm config get audit], which [improveNPMPerformance] has set to
    [false] by then: a successful run over the prerelease template
    leaves [legacy-peer-deps] at [false] on a machine that had it at
    [true]. *)
Remark prerelease_flag_set_from_audit :
  let out :=
    action flat_fs Example.ext0 Example.K0 [Example.prerelease]
      Example.all_options Example.p_legacy in
  npm_config (world Example.p_legacy) "legacy-peer-deps" = "true" /\
  snd out = 0%Z /\
  npm_config (world (fst out)) "legacy-peer-deps" = "false".
Proof.
  cbv zeta. repeat split; vm_compute; reflexivity.
Qed.

(** The calls of one builder, for a template of the self-naming mode
    with the html renderer. *)
Example html_builder_calls :
  map (fun c =>
         match c with
         | ExecaCommand command options => (command, cwd options)
         | _ => ("", None)
         end)
      (filter (fun c => match c with ExecaCommand _ _ => true | _ => false end)
         (calls (fst (run flat_fs Example.ext0
                        (generator_task Example.K0 false None Example.html)
                        Example.p0))))
  = [("yarn create webpack5-html before", Some "/tmp/sandbox");
     ("/code/lib/cli/bin/index.js init --yes --type html",
      Some "/tmp/sandbox/before")].
Proof. vm_compute. reflexivity. Qed.

(** C9 as stated fails: the key is not in the catalog and the process
    exits with code 0. *)
Lemma missing_template_exits_zero :
  let catalog := [Example.react; Example.html] in
  existsb (String.eqb "vue3-vite/default-ts") (map dirName catalog) = false /\
  snd (action flat_fs Example.ext0 Example.K0 catalog
         {| template := Some "vue3-vite/default-ts";
            localRegistry := Some false; debug := None |} Example.p0) = 0%Z.
Proof.
  cbv zeta. split; reflexivity.
Qed.

(** ** Substitution of the before-directory placeholder *)

Section ReplaceAll.

Lemma plain_scan_skip : forall x b pat rep,
  plain_scan (String.length x) (x ++ b) pat rep = plain_scan 0 b pat rep.
Proof.
  induction x as [|c x IH]; intros b pat rep; simpl; [reflexivity|].
  apply IH.
Qed.

Lemma plain_hit : forall c pat b rep,
  plain_replaceAll (String c pat ++ b) (String c pat) rep =
  rep ++ plain_replaceAll b (String c pat) rep.
Proof.
  intros c pat b rep. unfold plain_replaceAll.
  change (String c pat ++ b) with (String c (pat ++ b)).
  cbn [plain_scan].
  change (String c (pat ++ b)) with (String c pat ++ b).
  rewrite startsWith_app. cbn [String.length].
  rewrite Nat.sub_1_r. cbn [Nat.pred].
  now rewrite plain_scan_skip.
Qed.

Lemma plain_miss : forall c t p pat rep,
  startsWith (String c t) (String p pat) = false ->
  plain_replaceAll (String c t) (String p pat) rep =
  String c (plain_replaceAll t (String p pat) rep).
Proof.
  intros c t p pat rep H. unfold plain_replaceAll. cbn [plain_scan].
  now rewrite H.
Qed.

(** A string without the pattern is left as it is. *)
Lemma plain_none : forall s p pat rep,
  includes s (String p pat) = false ->
  plain_replaceAll s (String p pat) rep = s.
Proof.
  induction s as [|c s IH]; intros p pat rep H; [reflexivity|].
  rewrite includes_unfold in H. apply orb_false_iff in H.
  destruct H as [H1 H2].
  rewrite (plain_miss _ _ _ _ _ H1), (IH _ _ _ H2). reflexivity.
Qed.

(** The leftmost occurrence of the pattern is replaced, and the scan
    goes on behind it. *)
Lemma plain_leftmost : forall a b p pat rep,
  indexOf (a ++ String p pat ++ b) (String p pat) = Z.of_nat (String.length a) ->
  plain_replaceAll (a ++ String p pat ++ b) (String p pat) rep =
  a ++ rep ++ plain_replaceAll b (String p pat) rep.
Proof.
  induction a as [|c a IH]; intros b p pat rep H.
  - apply plain_hit.
  - change (String c a ++ String p pat ++ b)
      with (String c (a ++ String p pat ++ b)) in *.
    rewrite indexOf_unfold in H.
    destruct (startsWith (String c (a ++ String p pat ++ b)) (String p pat))
      eqn:E.
    + cbn [String.length] in H. lia.
    + rewrite (plain_miss _ _ _ _ _ E).
      destruct (indexOf (a ++ String p pat ++ b) (String p pat) =? -1)%Z eqn:E1.
      * cbn [String.length] in H. lia.
      * rewrite IH; [reflexivity|].
        cbn [String.length] in H. lia.
Qed.

(** A replacement without a dollar sign stands for itself. *)
Lemma substitute_plain : forall rep matched before after,
  includes rep "$" = false ->
  substitute rep matched before after = rep.
Proof.
  induction rep as [|c r IH]; intros matched before after H; [reflexivity|].
  rewrite includes_unfold in H. apply orb_false_iff in H.
  destruct H as [H1 H2].
  assert (Hc : Ascii.eqb c "$" = false).
  { destruct (Ascii.eqb_spec c "$") as [->|_]; [|reflexivity].
    unfold startsWith in H1. simpl in H1. destruct r; discriminate H1. }
  cbn [substitute]. rewrite Hc, (IH _ _ _ H2). reflexivity.
Qed.

Lemma replaceAll_scan_plain : forall rep pat,
  includes rep "$" = false ->
  forall s skip before,
    replaceAll_scan skip before s pat rep = plain_scan skip s pat rep.
Proof.
  intros rep pat H. induction s as [|c s IH]; intros skip before;
    [reflexivity|].
  cbn [replaceAll_scan plain_scan]. destruct skip as [|k].
  - rewrite substitute_plain by exact H. rewrite !IH. reflexivity.
  - apply IH.
Qed.

(** For a replacement without a dollar sign, [replaceAll] inserts the
    replacement as it is. *)
Lemma replaceAll_plain : forall s p pat rep,
  includes rep "$" = false ->
  replaceAll s (String p pat) rep = plain_replaceAll s (String p pat) rep.
Proof.
  intros s p pat rep H. unfold replaceAll, plain_replaceAll.
  apply replaceAll_scan_plain. exact H.
Qed.

End ReplaceAll.

(** ** The before snapshot *)

(** What the snapshot step of a builder writes: the filtered copy of
    the tree found in the init directory. *)
Lemma snapshot_call : forall FS (fsops : FsOps FS) (ext : External FS)
    (w : World FS) src dest items,
  fs_readTree fsops (fs w) src = Some items ->
  handle fsops ext (Copy src dest (Some before_filter)) w =
  match copy_dir before_filter src items with
  | Some snapshot =>
      (with_fs w (fs_putTree fsops dest snapshot (fs w)), Ok RUnit)
  | None => (w, Ok RUnit)
  end.
Proof.
  intros FS fsops ext w src dest items H. simpl. rewrite H. reflexivity.
Qed.

(** C6.  Whatever the scaffolded tree holds, no entry of the before
    snapshot is named [node_modules] or [.git]. *)
Theorem before_snapshot_components : forall src items snapshot,
  copy_dir before_filter src items = Some snapshot ->
  ~ In "node_modules" (tree_names snapshot) /\
  ~ In ".git" (tree_names snapshot).
Proof.
  intros src items snapshot H. unfold copy_dir in H.
  destruct (before_filter src); [|discriminate H].
  injection H as <-.
  split; intros Hin; apply copy_items_name_clean in Hin;
    destruct Hin as [H1 H2]; [discriminate H1 | discriminate H2].
Qed.

Lemma before_snapshot_components_witness :
  copy_dir before_filter "/tmp/sandbox/before" Example.project
  = Some [File "package.json"; Dir "src" [File "main.ts"]] /\
  ~ In "node_modules"
      (tree_names [File "package.json"; Dir "src" [File "main.ts"]]) /\
  ~ In ".git" (tree_names [File "package.json"; Dir "src" [File "main.ts"]]).
Proof.
  split; [reflexivity|].
  apply (@before_snapshot_components "/tmp/sandbox/before" Example.project).
  reflexivity.
Defined.

(** C10.  The filter looks for [node_modules] and [.git] anywhere in
    the source path: the snapshot holds exactly the entries whose full
    source path contains neither, so that an entry such as [.gitignore]
    or [node_modules_backup] is left out as well. *)
Theorem before_snapshot_substrings : forall src items snapshot,
  copy_dir before_filter src items = Some snapshot ->
  tree_paths src snapshot = filter before_filter (tree_paths src items) /\
  (forall p, In p (tree_paths src snapshot) ->
             includes p "node_modules" = false /\ includes p ".git" = false) /\
  (forall x, In x (tree_names snapshot) ->
             includes x "node_modules" = false /\ includes x ".git" = false) /\
  ~ In ".gitignore" (tree_names snapshot) /\
  ~ In "node_modules_backup" (tree_names snapshot).
Proof.
  intros src items snapshot H. unfold copy_dir in H.
  destruct (before_filter src); [|discriminate H].
  injection H as <-.
  split; [apply copy_items_paths|].
  split.
  { intros p Hp. apply copy_items_path_passes in Hp.
    rewrite before_filter_includes, andb_true_iff, !negb_true_iff in Hp.
    exact Hp. }
  split; [apply copy_items_name_clean|].
  split; intros Hin; apply copy_items_name_clean in Hin;
    destruct Hin as [H1 H2]; [discriminate H2 | discriminate H1].
Qed.

Lemma before_snapshot_substrings_witness :
  tree_names Example.project =
  ["package.json"; ".gitignore"; ".git"; "HEAD"; "node_modules"; "react";
   "index.js"; "node_modules_backup"; "index.js"; "src"; "main.ts";
   "node_modules"; "x.js"] /\
  tree_paths "/tmp/sandbox/before"
    [File "package.json"; Dir "src" [File "main.ts"]]
  = filter before_filter (tree_paths "/tmp/sandbox/before" Example.project).
Proof.
  split; [reflexivity|].
  apply (@before_snapshot_substrings "/tmp/sandbox/before" Example.project).
  reflexivity.
Defined.

(** ** The phases of a builder *)

Section BuilderPhases.

Variable FS : Type.
Variable fsops : FsOps FS.
Variable ext : External FS.
Variable K : Constants.

Local Open Scope list_scope.

Lemma run_bind_ret : forall (p : Prog unit) s,
  run fsops ext (p ;; Ret tt) s = run fsops ext p s.
Proof.
  intros p s. rewrite run_bind.
  destruct (run fsops ext p s) as [s' [[]|e]]; reflexivity.
Qed.

Lemma run_call_ : forall c s,
  run fsops ext (call_ c) s =
  let (s', o) := perform fsops ext c s in
  (s', match o with Ok _ => Ok tt | Failed e => Failed e end).
Proof.
  intros c s. unfold call_, call. cbn.
  destruct (perform fsops ext c s) as [s' [r|e]]; reflexivity.
Qed.

(** A builder is its phases in sequence, and it stops at the first one
    that fails. *)
Lemma generator_task_run : forall lr dbg g s,
  run fsops ext (generator_task K lr dbg g) s =
  let (s1, r1) :=
    run fsops ext (scaffold K (script g) (tempDir_of fsops K g s) dbg)
      (prepared fsops K g s) in
  match r1 with
  | Failed e => (s1, Failed e)
  | Ok _ =>
      let (s2, r2) := perform fsops ext (snapshot_of fsops K g s) s1 in
      match r2 with
      | Failed e => (s2, Failed e)
      | Ok _ =>
          let (s3, r3) :=
            run fsops ext
              (addStorybook K (tempInitDir_of fsops K g s) lr
                 (Some (renderer_flags (expected g))) dbg (dirName g)) s2 in
          match r3 with
          | Failed e => (s3, Failed e)
          | Ok _ => run fsops ext (promote K g (tempDir_of fsops K g s)) s3
          end
      end
  end.
Proof.
  intros lr dbg g s. unfold generator_task.
  rewrite run_bind, run_call_. unfold perform at 1. cbn [handle fst snd].
  cbv beta iota zeta.
  rewrite run_bind. cbn [run bind call]. unfold perform at 1.
  cbn [handle world calls shutdownListeners register_listener fs with_fs].
  unfold snapshot_of, promote, prepared, tempInitDir_of, beforeDir_of,
    afterDir_of, tempDir_of, baseDir_of.
  destruct (fs_tempDirectory fsops
              (fs_emptyDir fsops (path_join (REPROS_DIRECTORY K) (dirName g))
                 (fs (world s)))) as [tmp f2] eqn:Etmp.
  cbn [fst snd fs with_fs run bind reply_string].
  rewrite run_bind.
  match goal with
  | |- context [run fsops ext (scaffold K (script g) tmp dbg) ?st] =>
      destruct (run fsops ext (scaffold K (script g) tmp dbg) st)
        as [s1 [[]|e]]; [|reflexivity]
  end.
  rewrite run_bind, run_call_.
  match goal with
  | |- context [perform fsops ext ?c s1] =>
      destruct (perform fsops ext c s1) as [s2 [r|e]]; [|reflexivity]
  end.
  rewrite run_bind.
  match goal with
  | |- context [run fsops ext (addStorybook ?k ?dir ?l ?fl ?d ?n) s2] =>
      destruct (run fsops ext (addStorybook k dir l fl d n) s2)
        as [s3 [[]|e]]; reflexivity
  end.
Qed.

End BuilderPhases.

(** ** npm settings and their listeners *)

Section NpmSettings.

Variable FS : Type.
Variable fsops : FsOps FS.
Variable ext : External FS.
Variable K : Constants.

Local Open Scope list_scope.

Lemma set_key_same : forall m k v, set_key m k v k = v.
Proof. intros. unfold set_key. now rewrite String.eqb_refl. Qed.

Lemma set_key_other : forall m k v k', k' <> k -> set_key m k v k' = m k'.
Proof.
  intros m k v k' H. unfold set_key.
  apply String.eqb_neq in H. now rewrite H.
Qed.

(** Once the four npm commands of [improveNPMPerformance] have
    completed, [prefer-offline] is [true] and [audit] is [false], every
    other setting is as before, and the listener it registered, when it
    runs, puts both settings back: the whole npm configuration is then
    what it was. *)
Theorem improveNPMPerformance_round_trip : forall s,
  let out := run fsops ext improveNPMPerformance s in
  npm_config (world (fst out)) "prefer-offline" = "true" /\
  npm_config (world (fst out)) "audit" = "false" /\
  (forall k, k <> "prefer-offline" -> k <> "audit" ->
             npm_config (world (fst out)) k = npm_config (world s) k) /\
  exists listener,
    shutdownListeners (fst out) = shutdownListeners s ++ [listener] /\
    listener =
    [("prefer-offline", npm_config (world s) "prefer-offline");
     ("audit", npm_config (world s) "audit")] /\
    forall k,
      npm_config (world (fst (run fsops ext (run_listener listener) (fst out)))) k
      = npm_config (world s) k.
Proof.
  intros s out. subst out. rewrite improveNPMPerformance_run.
  cbn [fst snd].
  split; [reflexivity|]. split; [reflexivity|]. split.
  - intros k H1 H2. cbn. rewrite !set_key_other by assumption. reflexivity.
  - eexists. split; [reflexivity|]. split; [reflexivity|].
    intros k. cbn.
    destruct (String.eqb_spec k "audit") as [->|Ha].
    + apply set_key_same.
    + rewrite set_key_other by assumption.
      destruct (String.eqb_spec k "prefer-offline") as [->|Hp].
      * apply set_key_same.
      * rewrite !set_key_other by assumption. reflexivity.
Qed.

(** *** [addStorybook] outside the prerelease variant *)

Lemma sbInit_listeners : forall dir flags dbg s,
  shutdownListeners (fst (run fsops ext (sbInit K dir flags dbg) s))
  = shutdownListeners s.
Proof.
  intros. unfold sbInit. cbn. unfold perform. cbn.
  destruct (execa ext _ _ (world s)) as [w' [out|e]]; reflexivity.
Qed.

Lemma install_listeners : forall dir lr flags dbg s,
  shutdownListeners (fst (run fsops ext (install K dir lr flags dbg) s))
  = shutdownListeners s.
Proof.
  intros dir lr flags dbg s. unfold install. destruct lr.
  - rewrite withLocalRegistry_run. cbv zeta.
    destruct (setRegistryURL_error ext (Some (LOCAL_REGISTRY_URL K)) (world s)).
    + match goal with
      | |- context [setRegistryURL_error ext ?u ?w] =>
          destruct (setRegistryURL_error ext u w); reflexivity
      end.
    + pose proof (sbInit_listeners dir flags dbg (swapped K s)) as H.
      destruct (run fsops ext (sbInit K dir flags dbg) (swapped K s))
        as [s1 r1]. cbn [fst] in H.
      match goal with
      | |- context [setRegistryURL_error ext ?u ?w] =>
          destruct (setRegistryURL_error ext u w); cbn; exact H
      end.
  - apply sbInit_listeners.
Qed.

Lemma addStorybook_plain_run : forall dir lr flags dbg dirName' s,
  String.eqb dirName' PRERELEASE_KEY = false ->
  run fsops ext (addStorybook K dir lr flags dbg dirName') s =
  run fsops ext (install K dir lr flags dbg)
    (logged (logged s (GetPackageManager dir)) (NpmConfigGet "audit")).
Proof.
  intros dir lr flags dbg dirName' s H. unfold addStorybook.
  rewrite H. rewrite run_bind. cbn -[install sbInit withLocalRegistry].
  rewrite run_bind.
  change (if lr then withLocalRegistry K (sbInit K dir flags dbg)
          else sbInit K dir flags dbg) with (install K dir lr flags dbg).
  match goal with
  | |- context [run fsops ext (install K dir lr flags dbg) ?st] =>
      change st
        with (logged (logged s (GetPackageManager dir)) (NpmConfigGet "audit"))
  end.
  destruct (run fsops ext (install K dir lr flags dbg)
              (logged (logged s (GetPackageManager dir)) (NpmConfigGet "audit")))
    as [s1 [[]|e]]; reflexivity.
Qed.

(** For every template but the prerelease variant, [addStorybook] looks
    up the package manager, reads [audit] and installs: it runs no
    [npm config set] of its own and registers no shutdown listener, and
    its outcome is the outcome of the installation. *)
Theorem addStorybook_other_templates : forall dir lr flags dbg dirName' s,
  dirName' <> PRERELEASE_KEY ->
  let out := run fsops ext (addStorybook K dir lr flags dbg dirName') s in
  out =
  run fsops ext (install K dir lr flags dbg)
    (logged (logged s (GetPackageManager dir)) (NpmConfigGet "audit")) /\
  shutdownListeners (fst out) = shutdownListeners s /\
  (lr = false ->
   exists options,
     calls (fst out) =
     calls s
     ++ [GetPackageManager dir; NpmConfigGet "audit";
         ExecaCommand (sbInit_command (sbCliBinaryPath K) flags) options]).
Proof.
  intros dir lr flags dbg dirName' s H out. subst out.
  apply String.eqb_neq in H.
  rewrite addStorybook_plain_run by exact H.
  split; [reflexivity|]. split.
  - rewrite install_listeners. reflexivity.
  - intros ->. unfold install, sbInit. cbn. unfold perform. cbn.
    destruct (execa ext _ _ (world s)) as [w' [o|e]]; cbn;
      eexists; rewrite <- !app_assoc; reflexivity.
Qed.

(** The value [addStorybook] puts into [legacy-peer-deps] after a
    successful installation of the prerelease variant, and the value
    its shutdown listener carries, is the answer [npm config get audit]
    gave on entry. *)
Theorem addStorybook_writes_audit_value : forall dir lr flags dbg s s1,
  run fsops ext (install K dir lr flags dbg) (installing dir s) = (s1, Ok tt) ->
  let out := run fsops ext (addStorybook K dir lr flags dbg PRERELEASE_KEY) s in
  snd out = Ok tt /\
  npm_config (world (fst out)) "legacy-peer-deps" = npm_config (world s) "audit" /\
  shutdownListeners (installing dir s) =
  shutdownListeners s ++ [[("legacy-peer-deps", npm_config (world s) "audit")]].
Proof.
  intros dir lr flags dbg s s1 Hrun out. subst out.
  rewrite addStorybook_prerelease_run, Hrun. cbn.
  repeat split.
Qed.

(** With the local registry requested and a package manager that
    performs its set calls, the registry URL after [addStorybook] is
    the one before it, for every template and whether the installer
    succeeded or failed. *)
Theorem addStorybook_registry_restored : forall dir flags dbg dirName' s,
  (forall url w, setRegistryURL_error ext url w = None) ->
  registry_url
    (world (fst (run fsops ext (addStorybook K dir true flags dbg dirName') s)))
  = registry_url (world s).
Proof.
  intros dir flags dbg dirName' s Hset.
  assert (Hinstall : forall s0,
    registry_url
      (world (fst (run fsops ext (install K dir true flags dbg) s0)))
    = registry_url (world s0)).
  { intros s0. unfold install. rewrite withLocalRegistry_run, Hset.
    destruct (run fsops ext (sbInit K dir flags dbg) (swapped K s0))
      as [s1 r1]. cbv beta iota zeta. rewrite Hset. reflexivity. }
  destruct (String.eqb dirName' PRERELEASE_KEY) eqn:E.
  - apply String.eqb_eq in E. subst dirName'.
    rewrite addStorybook_prerelease_run.
    pose proof (Hinstall (installing dir s)) as H.
    destruct (run fsops ext (install K dir true flags dbg) (installing dir s))
      as [s1 [[]|e]]; exact H.
  - rewrite addStorybook_plain_run by exact E.
    rewrite Hinstall. reflexivity.
Qed.

End NpmSettings.

(** ** Selecting templates *)

Section Selection.

Variable FS : Type.
Variable fsops : FsOps FS.
Variable ext : External FS.
Variable K : Constants.

Local Open Scope list_scope.

Lemma generatorConfigs_filter : forall catalog t,
  t <> "" ->
  generatorConfigs catalog (Some t) =
  filter (fun g => String.eqb (dirName g) t) catalog.
Proof.
  intros catalog t Ht. unfold generatorConfigs. simpl.
  destruct (String.eqb_spec t "") as [E|_]; [contradiction|]. reflexivity.
Qed.

(** An empty template string is falsy: like a missing one it selects
    the whole catalog, in catalog order, and [generate] then does what
    it does without a template. *)
Theorem generate_empty_template : forall catalog lr dbg,
  generatorConfigs catalog (Some "") = catalog /\
  generatorConfigs catalog None = catalog /\
  generate K catalog {| template := Some ""; localRegistry := lr; debug := dbg |}
  = generate K catalog {| template := None; localRegistry := lr; debug := dbg |}.
Proof.
  intros catalog lr dbg.
  assert (H : generatorConfigs catalog (Some "") = catalog).
  { unfold generatorConfigs. simpl.
    induction catalog as [|g catalog IH]; simpl; [reflexivity|].
    now rewrite IH. }
  split; [exact H|]. split; [apply generatorConfigs_all|].
  unfold generate. cbn [template localRegistry debug].
  now rewrite H, generatorConfigs_all.
Qed.

Lemma filter_key_absent : forall catalog t,
  ~ In t (map dirName catalog) ->
  filter (fun g => String.eqb (dirName g) t) catalog = [].
Proof.
  intros catalog t H. apply filter_none. intros g Hg.
  apply String.eqb_neq. intros E. apply H. rewrite <- E. now apply in_map.
Qed.

Lemma filter_key_unique : forall catalog g,
  NoDup (map dirName catalog) -> In g catalog ->
  filter (fun g' => String.eqb (dirName g') (dirName g)) catalog = [g].
Proof.
  induction catalog as [|x catalog IH]; intros g Hnd Hin; [contradiction|].
  simpl in Hnd. inversion Hnd as [|? ? Hnotin Hnd']; subst.
  simpl. destruct Hin as [->|Hin].
  - rewrite String.eqb_refl. f_equal. now apply filter_key_absent.
  - destruct (String.eqb_spec (dirName x) (dirName g)) as [E|_].
    + exfalso. apply Hnotin. rewrite E. now apply in_map.
    + now apply IH.
Qed.

(** With distinct keys in the catalog, requesting the key of one of its
    templates runs the builder of exactly that template, once, after
    the npm settings have been tuned; the exit code is 0 when that
    builder succeeds and 1 when it fails. *)
Theorem generate_single_template : forall catalog g lr dbg s,
  NoDup (map dirName catalog) ->
  In g catalog ->
  dirName g <> "" ->
  let o := {| template := Some (dirName g); localRegistry := lr; debug := dbg |} in
  let task :=
    generator_task K (match lr with Some b => b | None => true end) dbg g in
  generatorConfigs catalog (Some (dirName g)) = [g] /\
  run fsops ext (generate K catalog o) s = run fsops ext task (tuned s) /\
  snd (action fsops ext K catalog o s) =
  match snd (run fsops ext task (tuned s)) with
  | Ok _ => 0%Z
  | Failed _ => 1%Z
  end.
Proof.
  intros catalog g lr dbg s Hnd Hin Hkey o task. subst o task.
  assert (H : generatorConfigs catalog (Some (dirName g)) = [g]).
  { rewrite generatorConfigs_filter by exact Hkey.
    now apply filter_key_unique. }
  assert (Hrun :
    run fsops ext
      (generate K catalog
         {| template := Some (dirName g); localRegistry := lr; debug := dbg |}) s
    = run fsops ext
        (generator_task K (match lr with Some b => b | None => true end) dbg g)
        (tuned s)).
  { unfold generate. cbn [template localRegistry debug].
    rewrite runGenerators_run, H. cbn [map limit_all].
    apply run_bind_ret. }
  split; [exact H|]. split; [exact Hrun|].
  unfold action. rewrite Hrun.
  destruct (run fsops ext _ (tuned s)) as [s' [[]|e]]; reflexivity.
Qed.

End Selection.

(** ** Failure and success of a builder *)

Section BuilderOutcome.

Variable FS : Type.
Variable fsops : FsOps FS.
Variable ext : External FS.
Variable K : Constants.

Local Open Scope list_scope.

(** A builder stops at the first phase that fails, with the error and
    in the state of that phase: after a failed init script nothing is
    copied, after a failed snapshot nothing is installed, and after a
    failed installation nothing is moved to [after] and the temp root
    is not removed. *)
Theorem builder_stops_at_failure : forall lr dbg g s,
  let task := generator_task K lr dbg g in
  let scaffolding := scaffold K (script g) (tempDir_of fsops K g s) dbg in
  let installation :=
    addStorybook K (tempInitDir_of fsops K g s) lr
      (Some (renderer_flags (expected g))) dbg (dirName g) in
  (forall s1 e,
     run fsops ext scaffolding (prepared fsops K g s) = (s1, Failed e) ->
     run fsops ext task s = (s1, Failed e)) /\
  (forall s1 s2 e,
     run fsops ext scaffolding (prepared fsops K g s) = (s1, Ok tt) ->
     perform fsops ext (snapshot_of fsops K g s) s1 = (s2, Failed e) ->
     run fsops ext task s = (s2, Failed e)) /\
  (forall s1 s2 r s3 e,
     run fsops ext scaffolding (prepared fsops K g s) = (s1, Ok tt) ->
     perform fsops ext (snapshot_of fsops K g s) s1 = (s2, Ok r) ->
     run fsops ext installation s2 = (s3, Failed e) ->
     run fsops ext task s = (s3, Failed e)).
Proof.
  intros lr dbg g s task scaffolding installation.
  subst task scaffolding installation.
  repeat split.
  - intros s1 e H1. rewrite generator_task_run, H1. reflexivity.
  - intros s1 s2 e H1 H2. rewrite generator_task_run, H1, H2. reflexivity.
  - intros s1 s2 r s3 e H1 H2 H3.
    rewrite generator_task_run, H1, H2, H3. reflexivity.
Qed.

(** When the init script succeeds but leaves no init directory (a tool
    of the self-naming mode that did not create [before]), the snapshot
    fails with ENOENT on that directory and the installer is never
    run. *)
Theorem builder_missing_init_directory : forall lr dbg g s s1,
  run fsops ext (scaffold K (script g) (tempDir_of fsops K g s) dbg)
    (prepared fsops K g s) = (s1, Ok tt) ->
  fs_readTree fsops (fs (world s1)) (tempInitDir_of fsops K g s) = None ->
  run fsops ext (generator_task K lr dbg g) s =
  (logged s1 (snapshot_of fsops K g s),
   Failed (ENOENT (tempInitDir_of fsops K g s))).
Proof.
  intros lr dbg g s s1 H1 Hnone.
  rewrite generator_task_run, H1. unfold perform, snapshot_of.
  cbn [handle]. rewrite Hnone. reflexivity.
Qed.

Lemma promote_run : forall g tempDir s items,
  fs_readTree fsops (fs (world s)) (path_join tempDir (BEFORE_DIR_NAME K))
  = Some items ->
  let out := run fsops ext (promote K g tempDir) s in
  snd out = Ok tt /\
  shutdownListeners (fst out) = shutdownListeners s /\
  calls (fst out) =
  calls s
  ++ promote_calls K g tempDir
       (process_env (world s) "CLEANUP_SANDBOX_NODE_MODULES").
Proof.
  intros g tempDir s items H out. subst out.
  unfold promote, promote_calls, addDocumentation. cbn. unfold perform. cbn.
  rewrite H. cbn.
  destruct (truthy (process_env (world s) "CLEANUP_SANDBOX_NODE_MODULES"));
    cbn; repeat split; rewrite <- !app_assoc; reflexivity.
Qed.

(** After a successful installation, with the init directory still in
    place, the builder succeeds: it moves the init directory to
    [after], copies [.stackblitzrc] and writes [README.md] there,
    removes [after/node_modules] exactly when
    [CLEANUP_SANDBOX_NODE_MODULES] is set and not empty, and removes
    the temp root last. *)
Theorem builder_promotes_and_cleans : forall lr dbg g s s1 s2 r s3 items,
  run fsops ext (scaffold K (script g) (tempDir_of fsops K g s) dbg)
    (prepared fsops K g s) = (s1, Ok tt) ->
  perform fsops ext (snapshot_of fsops K g s) s1 = (s2, Ok r) ->
  run fsops ext
    (addStorybook K (tempInitDir_of fsops K g s) lr
       (Some (renderer_flags (expected g))) dbg (dirName g)) s2
  = (s3, Ok tt) ->
  fs_readTree fsops (fs (world s3)) (tempInitDir_of fsops K g s) = Some items ->
  let out := run fsops ext (generator_task K lr dbg g) s in
  snd out = Ok tt /\
  calls (fst out) =
  calls s3
  ++ promote_calls K g (tempDir_of fsops K g s)
       (process_env (world s3) "CLEANUP_SANDBOX_NODE_MODULES").
Proof.
  intros lr dbg g s s1 s2 r s3 items H1 H2 H3 Hdir out. subst out.
  rewrite generator_task_run, H1, H2, H3.
  destruct (promote_run g (tempDir_of fsops K g s) s3 Hdir) as (Hok & _ & Hc).
  split; [exact Hok | exact Hc].
Qed.

End BuilderOutcome.

(** ** More on the snapshot and on the placeholder *)

Section SnapshotEdges.

Local Open Scope list_scope.

(** When the path of the init directory itself contains [node_modules]
    or [.git] (a temp root below such a directory), the snapshot call
    copies nothing at all and still succeeds, so that the builder goes
    on without a [before] directory. *)
Theorem snapshot_of_rejected_root : forall FS (fsops : FsOps FS)
    (ext : External FS) (w : World FS) src dest items,
  includes src "node_modules" = true \/ includes src ".git" = true ->
  fs_readTree fsops (fs w) src = Some items ->
  copy_dir before_filter src items = None /\
  handle fsops ext (Copy src dest (Some before_filter)) w = (w, Ok RUnit).
Proof.
  intros FS fsops ext w src dest items Hsub Hread.
  assert (Hf : before_filter src = false).
  { rewrite before_filter_includes.
    destruct Hsub as [H|H]; rewrite H; [reflexivity | apply andb_false_r]. }
  assert (Hnone : copy_dir before_filter src items = None).
  { unfold copy_dir. now rewrite Hf. }
  split; [exact Hnone|].
  rewrite (snapshot_call fsops ext w src dest Hread), Hnone. reflexivity.
Qed.

Lemma copy_node_clean : forall n src,
  (forall p, In p (node_paths src n) -> before_filter p = true) ->
  copy_node before_filter src n = [n].
Proof.
  induction n as [f|d items IH] using Node_tree_ind; intros src H; simpl.
  - rewrite (H (path_join src f)) by (simpl; auto). reflexivity.
  - rewrite (H (path_join src d)) by (simpl; auto). do 2 f_equal.
    assert (Hitems : forall x, In x items ->
              copy_node before_filter (path_join src d) x = [x]).
    { intros x Hx. rewrite Forall_forall in IH. apply (IH x Hx).
      intros p Hp. apply H. simpl. right. apply in_flat_map. eauto. }
    clear IH H. induction items as [|x items IHi]; simpl; [reflexivity|].
    rewrite (Hitems x (or_introl eq_refl)). simpl. f_equal.
    apply IHi. intros y Hy. apply Hitems. now right.
Qed.

(** A tree in which no path contains [node_modules] or [.git] is copied
    as it is: the snapshot drops nothing but the filtered entries. *)
Theorem snapshot_of_clean_tree : forall src items,
  (forall p, In p (src :: tree_paths src items) ->
             includes p "node_modules" = false /\ includes p ".git" = false) ->
  copy_dir before_filter src items = Some items.
Proof.
  intros src items H.
  assert (Hpass : forall p, In p (src :: tree_paths src items) ->
                            before_filter p = true).
  { intros p Hp. destruct (H p Hp) as [H1 H2].
    rewrite before_filter_includes, H1, H2. reflexivity. }
  unfold copy_dir. rewrite (Hpass src (or_introl eq_refl)). f_equal.
  unfold copy_items.
  assert (Hitems : forall x, In x items ->
            copy_node before_filter src x = [x]).
  { intros x Hx. apply copy_node_clean. intros p Hp. apply Hpass.
    right. unfold tree_paths. apply in_flat_map. eauto. }
  clear H Hpass. induction items as [|x items IH]; simpl; [reflexivity|].
  rewrite (Hitems x (or_introl eq_refl)). simpl. f_equal.
  apply IH. intros y Hy. apply Hitems. now right.
Qed.

End SnapshotEdges.

Section Placeholder.

(** Decides a prefix test on a string whose first characters are
    variables, one character at a time. *)
Ltac prefix_cases E :=
  repeat (cbn [String.prefix String.append] in E;
          match type of E with
          | context [Ascii.ascii_dec ?x ?y] =>
              destruct (Ascii.ascii_dec x y) as [e|n];
              [try discriminate e; try subst | discriminate E]
          end);
  try discriminate E.

(** No occurrence of the placeholder begins in a text that is followed
    by the placeholder, unless it lies in that text: the placeholder
    does not overlap itself. *)
Lemma placeholder_no_straddle : forall a b,
  a <> "" ->
  startsWith a BEFORE_DIR_TOKEN = false ->
  startsWith (a ++ BEFORE_DIR_TOKEN ++ b) BEFORE_DIR_TOKEN = false.
Proof.
  intros a b Hne H.
  destruct (startsWith (a ++ BEFORE_DIR_TOKEN ++ b) BEFORE_DIR_TOKEN) eqn:E;
    [exfalso|reflexivity].
  unfold startsWith, BEFORE_DIR_TOKEN in *.
  destruct a as [|c a]; [now apply Hne|]. clear Hne.
  do 12 (destruct a as [|? a]; [clear H; prefix_cases E|]).
  prefix_cases E. prefix_cases H.
  cbn [String.prefix] in H. destruct a; discriminate H.
Qed.

Lemma plain_first_placeholder : forall a b rep,
  includes a BEFORE_DIR_TOKEN = false ->
  plain_replaceAll (a ++ BEFORE_DIR_TOKEN ++ b) BEFORE_DIR_TOKEN rep =
  a ++ rep ++ plain_replaceAll b BEFORE_DIR_TOKEN rep.
Proof.
  induction a as [|c a IH]; intros b rep H.
  - apply plain_hit.
  - rewrite includes_unfold in H. apply orb_false_iff in H.
    destruct H as [H1 H2].
    assert (Hs : startsWith (String c a ++ BEFORE_DIR_TOKEN ++ b)
                   BEFORE_DIR_TOKEN = false).
    { apply placeholder_no_straddle; [discriminate | exact H1]. }
    change (String c a ++ BEFORE_DIR_TOKEN ++ b)
      with (String c (a ++ BEFORE_DIR_TOKEN ++ b)) in *.
    pose proof (@plain_miss c (a ++ BEFORE_DIR_TOKEN ++ b)
                  "{"%char "{beforeDir}}" rep) as Hm.
    change (String "{" "{beforeDir}}") with BEFORE_DIR_TOKEN in Hm.
    rewrite (Hm Hs), (IH b rep H2). reflexivity.
Qed.

(** Substituting the placeholder is splitting at it and joining again:
    for an init script made of pieces without the placeholder, joined
    by the placeholder, and a replacement without a dollar sign, the
    command is the same pieces joined by the replacement. *)
Theorem replaceAll_placeholder_join : forall pieces rep,
  includes rep "$" = false ->
  Forall (fun piece => includes piece BEFORE_DIR_TOKEN = false) pieces ->
  replaceAll (join pieces BEFORE_DIR_TOKEN) BEFORE_DIR_TOKEN rep
  = join pieces rep.
Proof.
  intros pieces rep Hrep.
  pose proof (@replaceAll_plain (join pieces BEFORE_DIR_TOKEN)
                "{"%char "{beforeDir}}" rep Hrep) as Hp.
  change (String "{" "{beforeDir}}") with BEFORE_DIR_TOKEN in Hp.
  rewrite Hp. clear Hp. unfold join.
  induction pieces as [|x pieces IH]; intros H; [reflexivity|].
  inversion H as [|? ? Hx Hrest]; subst.
  destruct pieces as [|y pieces].
  - simpl. apply plain_none. exact Hx.
  - change (String.concat BEFORE_DIR_TOKEN (x :: y :: pieces))
      with (x ++ BEFORE_DIR_TOKEN ++ String.concat BEFORE_DIR_TOKEN (y :: pieces)).
    change (String.concat rep (x :: y :: pieces))
      with (x ++ rep ++ String.concat rep (y :: pieces)).
    rewrite plain_first_placeholder by exact Hx.
    rewrite (IH Hrest). reflexivity.
Qed.

(** A replacement with a dollar pattern is expanded: [$&] puts the
    placeholder back. *)
Example replaceAll_dollar_pattern :
  replaceAll "tool create {{beforeDir}}" BEFORE_DIR_TOKEN "$&"
  = "tool create {{beforeDir}}" /\
  replaceAll "tool create {{beforeDir}}" BEFORE_DIR_TOKEN "a$$b"
  = "tool create a$b".
Proof. split; reflexivity. Qed.

End Placeholder.

(** ** The layout of the manager application *)

Section AppLayout.

Variables ViewMode LayoutOptions Page PanelCount : Type.

Local Open Scope list_scope.

Lemma at_least_less_than : forall d k,
  App.truthy_number d = true ->
  App.at_least d k = negb (App.less_than d k).
Proof.
  intros [[|p|q]|] k H; try discriminate H; simpl.
  - now rewrite negb_involutive.
  - now rewrite negb_involutive.
Qed.

(** [App] renders the global styles and the icon symbols, and then
    exactly one layout or none: the new layout when [newLayout] is
    set, whatever the size; otherwise nothing until both width and
    height are measured and not zero, then the mobile layout for a
    width below 600 and the desktop layout from 600 on. *)
Theorem app_layout_choice :
  forall (props : App.AppProps ViewMode LayoutOptions Page PanelCount)
         (width height : App.Dimension),
  App.render props width height =
  [App.Global _ _ _ _; App.Symbols _ _ _ _]
  ++ match App.newLayout props with
     | Some true => [App.Layout _ _ _ _]
     | _ =>
         if App.truthy_number width && App.truthy_number height
         then if App.less_than width 600%Q
              then [App.Mobile PanelCount (App.viewMode props)
                      (App.layout props) (App.pages props)]
              else [App.Desktop (App.viewMode props) (App.layout props)
                      width height (App.panelCount props) (App.pages props)]
         else []
     end.
Proof.
  intros props width height. unfold App.render.
  assert (Hold :
    App.and_then
      (if App.truthy_number width && App.truthy_number height
       then Some (App.less_than width 600%Q) else None)
      (App.Mobile PanelCount (App.viewMode props) (App.layout props)
         (App.pages props))
    ++ App.and_then
         (if App.truthy_number width && App.truthy_number height
          then Some (App.at_least width 600%Q) else None)
         (App.Desktop (App.viewMode props) (App.layout props) width height
            (App.panelCount props) (App.pages props))
    = if App.truthy_number width && App.truthy_number height
      then if App.less_than width 600%Q
           then [App.Mobile PanelCount (App.viewMode props)
                   (App.layout props) (App.pages props)]
           else [App.Desktop (App.viewMode props) (App.layout props)
                   width height (App.panelCount props) (App.pages props)]
      else []).
  { destruct (App.truthy_number width) eqn:Ew; [|reflexivity].
    destruct (App.truthy_number height); [|reflexivity]. cbn [andb].
    rewrite (at_least_less_than width 600%Q Ew).
    destruct (App.less_than width 600%Q); reflexivity. }
  destruct (App.newLayout props) as [[|]|]; cbn [negb App.and_then].
  - reflexivity.
  - rewrite Hold, app_nil_r. reflexivity.
  - rewrite Hold, app_nil_r. reflexivity.
Qed.

End AppLayout.

(** ** Closed instances of the properties above *)

Lemma improveNPMPerformance_round_trip_witness :
  let tuned_p0 := fst (run flat_fs Example.ext0 improveNPMPerformance Example.p0) in
  let back :=
    fst (run flat_fs Example.ext0
           (run_listener [("prefer-offline", "false"); ("audit", "true")])
           tuned_p0) in
  npm_config (world tuned_p0) "audit" = "false" /\
  npm_config (world tuned_p0) "legacy-peer-deps"
  = npm_config (world Example.p0) "legacy-peer-deps" /\
  npm_config (world back) "audit" = npm_config (world Example.p0) "audit" /\
  npm_config (world back) "prefer-offline"
  = npm_config (world Example.p0) "prefer-offline".
Proof.
  destruct (@improveNPMPerformance_round_trip FlatFS flat_fs Example.ext0
              Example.p0) as (_ & Haudit & Hframe & listener & Hl & _ & Hback).
  injection Hl as <-.
  split; [exact Haudit|].
  split; [apply Hframe; discriminate|].
  split; apply Hback.
Defined.

Lemma addStorybook_other_templates_witness :
  let out :=
    run flat_fs Example.ext0
      (addStorybook Example.K0 "/tmp/sandbox/before" false None None
         (dirName Example.react)) Example.p0 in
  shutdownListeners (fst out) = [] /\
  exists options,
    calls (fst out) =
    [GetPackageManager "/tmp/sandbox/before"; NpmConfigGet "audit";
     ExecaCommand "/code/lib/cli/bin/index.js init --yes" options].
Proof.
  assert (Hkey : dirName Example.react <> PRERELEASE_KEY) by discriminate.
  destruct (@addStorybook_other_templates FlatFS flat_fs Example.ext0 Example.K0
              "/tmp/sandbox/before" false None None (dirName Example.react)
              Example.p0 Hkey) as (_ & Hl & Hc).
  split; [exact Hl|].
  destruct (Hc eq_refl) as [options Hcalls].
  exists options. exact Hcalls.
Defined.

Lemma addStorybook_writes_audit_value_witness :
  npm_config (world Example.p0) "legacy-peer-deps" = "false" /\
  npm_config (world Example.p0) "audit" = "true" /\
  npm_config
    (world
       (fst (run flat_fs Example.ext0
               (addStorybook Example.K0 "/tmp/sandbox/before" false None None
                  PRERELEASE_KEY) Example.p0))) "legacy-peer-deps" = "true".
Proof.
  split; [reflexivity|]. split; [reflexivity|].
  destruct (@addStorybook_writes_audit_value FlatFS flat_fs Example.ext0
              Example.K0 "/tmp/sandbox/before" false None None Example.p0 _
              eq_refl) as (_ & Hv & _).
  exact Hv.
Defined.

Lemma addStorybook_registry_restored_witness :
  let out :=
    run flat_fs Example.ext_install_fails
      (addStorybook Example.K0 "/tmp/sandbox/before" true None None
         (dirName Example.react)) Example.p0 in
  snd out =
  Failed (MkError "Command failed: /code/lib/cli/bin/index.js init --yes") /\
  registry_url (world (fst out)) = Some "https://registry.npmjs.org/".
Proof.
  split; [reflexivity|].
  apply (@addStorybook_registry_restored FlatFS flat_fs
           Example.ext_install_fails Example.K0).
  intros url w. reflexivity.
Defined.

Lemma generate_single_template_witness :
  generatorConfigs [Example.react; Example.html]
    (Some "html-webpack/default") = [Example.html] /\
  snd (action flat_fs Example.ext0 Example.K0 [Example.react; Example.html]
         {| template := Some "html-webpack/default";
            localRegistry := Some false; debug := None |} Example.p0) = 0%Z.
Proof.
  assert (Hnd : NoDup (map dirName [Example.react; Example.html])).
  { repeat constructor; simpl; intuition discriminate. }
  assert (Hin : In Example.html [Example.react; Example.html])
    by (right; left; reflexivity).
  assert (Hkey : dirName Example.html <> "") by discriminate.
  destruct (@generate_single_template FlatFS flat_fs Example.ext0 Example.K0
              [Example.react; Example.html] Example.html (Some false) None
              Example.p0 Hnd Hin Hkey) as (Hsel & _ & Hcode).
  split; [exact Hsel|].
  etransitivity; [exact Hcode|]. vm_compute. reflexivity.
Defined.

Lemma builder_stops_at_failure_witness :
  exists s1,
    run flat_fs Example.ext0
      (generator_task Example.K0 false None Example.broken) Example.p0
    = (s1, Failed (MkError "Command failed: npx broken-tool .")) /\
    calls s1 =
    [EmptyDir "/repros/broken/default"; TempDirectory;
     EnsureDir "/tmp/sandbox/before";
     ExecaCommand "npx broken-tool ."
       {| cwd := Some "/tmp/sandbox/before"; timeout := Some 600000%Z;
          stdout := Some "ignore"; stderr := None; shell := Some true;
          env := [] |}].
Proof.
  destruct (@builder_stops_at_failure FlatFS flat_fs Example.ext0 Example.K0
              false None Example.broken Example.p0) as (Hscaffold & _).
  eexists. split.
  - apply Hscaffold. vm_compute. reflexivity.
  - reflexivity.
Defined.

Lemma builder_missing_init_directory_witness :
  snd (run flat_fs ext_silent
         (generator_task Example.K0 false None Example.html) Example.p0)
  = Failed (MkError "ENOENT: no such file or directory, /tmp/sandbox/before").
Proof.
  erewrite (@builder_missing_init_directory FlatFS flat_fs ext_silent Example.K0
              false None Example.html Example.p0);
    [reflexivity | vm_compute; reflexivity | reflexivity].
Defined.

Lemma builder_promotes_and_cleans_witness :
  snd (run flat_fs Example.ext0
         (generator_task Example.K0 false None Example.react) Example.p0)
  = Ok tt.
Proof.
  eapply (@builder_promotes_and_cleans FlatFS flat_fs Example.ext0 Example.K0
            false None Example.react Example.p0).
  - vm_compute. reflexivity.
  - vm_compute. reflexivity.
  - vm_compute. reflexivity.
  - vm_compute. reflexivity.
Defined.

Lemma snapshot_of_rejected_root_witness :
  let src := "/work/node_modules/.tmp/sandbox/before" in
  let w := with_fs Example.w0 (put_dir src Example.project empty_fs) in
  copy_dir before_filter src Example.project = None /\
  handle flat_fs Example.ext0
    (Copy src "/repros/react-vite/default-ts/before" (Some before_filter)) w
  = (w, Ok RUnit).
Proof.
  apply (@snapshot_of_rejected_root FlatFS flat_fs Example.ext0).
  - left. reflexivity.
  - reflexivity.
Defined.

Lemma snapshot_of_clean_tree_witness :
  copy_dir before_filter "/tmp/sandbox/before"
    [File "package.json"; Dir "src" [File "main.ts"]]
  = Some [File "package.json"; Dir "src" [File "main.ts"]].
Proof.
  apply snapshot_of_clean_tree.
  intros p Hp. simpl in Hp.
  destruct Hp as [<-|[<-|[<-|[<-|[]]]]]; split; reflexivity.
Defined.

Lemma replaceAll_placeholder_join_witness :
  replaceAll "mkdir {{beforeDir}} && cd {{beforeDir}} && npm init -y"
    BEFORE_DIR_TOKEN "before"
  = "mkdir before && cd before && npm init -y".
Proof.
  apply (@replaceAll_placeholder_join ["mkdir "; " && cd "; " && npm init -y"]
           "before").
  - reflexivity.
  - repeat constructor.
Defined.

(** ** The calls of a builder: scaffolding and installer *)

Section BuilderCalls.

Variable FS : Type.
Variable fsops : FsOps FS.
Variable ext : External FS.
Variable K : Constants.

Local Open Scope list_scope.

Lemma scaffold_calls : forall script' tempDir dbg s,
  exists options,
    calls (fst (run fsops ext (scaffold K script' tempDir dbg) s)) =
    calls s
    ++ (if includes script' BEFORE_DIR_TOKEN
        then [ExecaCommand
                (replaceAll script' BEFORE_DIR_TOKEN (BEFORE_DIR_NAME K)) options]
        else [EnsureDir (path_join tempDir (BEFORE_DIR_NAME K));
              ExecaCommand script' options]) /\
    cwd options =
    Some (if includes script' BEFORE_DIR_TOKEN then tempDir
          else path_join tempDir (BEFORE_DIR_NAME K)).
Proof.
  intros script' tempDir dbg s. unfold scaffold.
  destruct (includes script' BEFORE_DIR_TOKEN); cbn; unfold perform; cbn.
  - destruct (execa ext _ _ (world s)) as [w' [out|e]]; cbn;
      eexists; split; reflexivity.
  - destruct (execa ext _ _ _) as [w' [out|e]]; cbn;
      eexists; (split; [rewrite <- app_assoc|]; reflexivity).
Qed.

Lemma task_calls_after_scaffold : forall lr dbg g s,
  exists rest,
    calls (fst (run fsops ext (generator_task K lr dbg g) s)) =
    calls (fst (run fsops ext
                  (scaffold K (script g) (tempDir_of fsops K g s) dbg)
                  (prepared fsops K g s)))
    ++ rest.
Proof.
  intros lr dbg g s. rewrite generator_task_run.
  destruct (run fsops ext (scaffold K (script g) (tempDir_of fsops K g s) dbg)
              (prepared fsops K g s)) as [s1 [[]|e]]; cbn [fst];
    [|exists []; now rewrite app_nil_r].
  pose proof (perform_calls fsops ext (snapshot_of fsops K g s) s1) as Hc.
  destruct (perform fsops ext (snapshot_of fsops K g s) s1) as [s2 [r|e]];
    cbn [fst] in Hc |- *; [|eexists; exact Hc].
  match goal with
  | |- context [run fsops ext ?p s2] =>
      destruct (run_calls_extend fsops ext p s2) as [l Hl];
      destruct (run fsops ext p s2) as [s3 [[]|e]]; cbn [fst] in Hl |- *
  end.
  - destruct (run_calls_extend fsops ext
                (promote K g (tempDir_of fsops K g s)) s3) as [l' Hl'].
    exists ([snapshot_of fsops K g s] ++ l ++ l').
    rewrite Hl', Hl, Hc, <- !app_assoc. reflexivity.
  - exists ([snapshot_of fsops K g s] ++ l).
    rewrite Hl, Hc, <- !app_assoc. reflexivity.
Qed.

Lemma sbInit_call : forall dir flags dbg s,
  exists options,
    calls (fst (run fsops ext (sbInit K dir flags dbg) s)) =
    calls s ++ [ExecaCommand (sbInit_command (sbCliBinaryPath K) flags) options] /\
    cwd options = Some dir.
Proof.
  intros dir flags dbg s. unfold sbInit. cbn. unfold perform; cbn.
  destruct (execa ext _ _ (world s)) as [w' [out|e]]; cbn;
    eexists; split; reflexivity.
Qed.

Lemma install_call : forall dir lr flags dbg s,
  (forall w, setRegistryURL_error ext (Some (LOCAL_REGISTRY_URL K)) w = None) ->
  exists pre options post,
    calls (fst (run fsops ext (install K dir lr flags dbg) s)) =
    calls s ++ pre
    ++ [ExecaCommand (sbInit_command (sbCliBinaryPath K) flags) options]
    ++ post /\
    Forall not_a_command pre /\
    cwd options = Some dir.
Proof.
  intros dir lr flags dbg s Hlocal. unfold install. destruct lr.
  - rewrite withLocalRegistry_run, Hlocal. cbv zeta.
    destruct (sbInit_call dir flags dbg (swapped K s)) as (options & Hc & Hw).
    destruct (run fsops ext (sbInit K dir flags dbg) (swapped K s))
      as [s1 r1]. cbn [fst] in Hc.
    exists [GetRegistryURL; SetRegistryURL (Some (LOCAL_REGISTRY_URL K))],
      options, [SetRegistryURL (registry_url (world s))].
    split; [|split; [repeat constructor | exact Hw]].
    match goal with
    | |- context [setRegistryURL_error ext ?u ?w] =>
        destruct (setRegistryURL_error ext u w)
    end; cbn; rewrite Hc; cbn; rewrite <- !app_assoc; reflexivity.
  - destruct (sbInit_call dir flags dbg s) as (options & Hc & Hw).
    exists [], options, []. rewrite Hc.
    split; [reflexivity | split; [constructor | exact Hw]].
Qed.

Lemma addStorybook_call : forall dir lr flags dbg dirName' s,
  (forall w, setRegistryURL_error ext (Some (LOCAL_REGISTRY_URL K)) w = None) ->
  exists pre options post,
    calls (fst (run fsops ext (addStorybook K dir lr flags dbg dirName') s)) =
    calls s ++ pre
    ++ [ExecaCommand (sbInit_command (sbCliBinaryPath K) flags) options]
    ++ post /\
    Forall not_a_command pre /\
    cwd options = Some dir.
Proof.
  intros dir lr flags dbg dirName' s Hlocal.
  destruct (String.eqb dirName' PRERELEASE_KEY) eqn:E.
  - apply String.eqb_eq in E. subst dirName'.
    rewrite addStorybook_prerelease_run.
    destruct (install_call dir lr flags dbg (installing dir s) Hlocal)
      as (pre & options & post & Hc & Hpre & Hw).
    destruct (run fsops ext (install K dir lr flags dbg) (installing dir s))
      as [s1 [[]|e]]; cbn [fst] in Hc |- *.
    + exists ([GetPackageManager dir; NpmConfigGet "audit";
               NpmConfigSet "legacy-peer-deps" "true";
               BeforeShutdown
                 [("legacy-peer-deps", npm_config (world s) "audit")]] ++ pre),
        options,
        (post ++ [NpmConfigSet "legacy-peer-deps" (npm_config (world s) "audit")]).
      split; [|split; [|exact Hw]].
      * cbn. rewrite Hc. cbn. rewrite <- !app_assoc. reflexivity.
      * apply Forall_app. split; [repeat constructor | exact Hpre].
    + exists ([GetPackageManager dir; NpmConfigGet "audit";
               NpmConfigSet "legacy-peer-deps" "true";
               BeforeShutdown
                 [("legacy-peer-deps", npm_config (world s) "audit")]] ++ pre),
        options, post.
      split; [|split; [|exact Hw]].
      * rewrite Hc. cbn. rewrite <- !app_assoc. reflexivity.
      * apply Forall_app. split; [repeat constructor | exact Hpre].
  - rewrite addStorybook_plain_run by exact E.
    destruct (install_call dir lr flags dbg
                (logged (logged s (GetPackageManager dir)) (NpmConfigGet "audit"))
                Hlocal)
      as (pre & options & post & Hc & Hpre & Hw).
    exists ([GetPackageManager dir; NpmConfigGet "audit"] ++ pre), options, post.
    split; [|split; [|exact Hw]].
    + rewrite Hc. cbn. rewrite <- !app_assoc. reflexivity.
    + apply Forall_app. split; [repeat constructor | exact Hpre].
Qed.

End BuilderCalls.

Section BuilderClaims.

Variable FS : Type.
Variable fsops : FsOps FS.
Variable ext : External FS.
Variable K : Constants.

Local Open Scope list_scope.

(** C5.  Every builder empties its output directory, takes a temp root
    and then runs the init script in one of two ways.  A script that
    contains the placeholder is run in the temp root as
    [script.replaceAll('{{beforeDir}}', BEFORE_DIR_NAME)]; a script
    without it is run unchanged in the subdirectory
    [tempRoot/BEFORE_DIR_NAME], which is created first.  For a
    before-directory name without a dollar sign the substitution
    replaces the leftmost occurrence by the name and goes on behind it,
    and leaves a text without the placeholder as it is. *)
Theorem builder_scaffold_modes : forall lr dbg g s,
  let out := run fsops ext (generator_task K lr dbg g) s in
  let tempDir := tempDir_of fsops K g s in
  let tempInitDir := path_join tempDir (BEFORE_DIR_NAME K) in
  (includes (script g) BEFORE_DIR_TOKEN = true ->
   exists options rest,
     calls (fst out) =
     calls s
     ++ [EmptyDir (baseDir_of K g); TempDirectory;
         ExecaCommand
           (replaceAll (script g) BEFORE_DIR_TOKEN (BEFORE_DIR_NAME K)) options]
     ++ rest /\
     cwd options = Some tempDir) /\
  (includes (script g) BEFORE_DIR_TOKEN = false ->
   exists options rest,
     calls (fst out) =
     calls s
     ++ [EmptyDir (baseDir_of K g); TempDirectory;
         EnsureDir tempInitDir; ExecaCommand (script g) options]
     ++ rest /\
     cwd options = Some tempInitDir) /\
  (includes (BEFORE_DIR_NAME K) "$" = false ->
   (forall a b,
      indexOf (a ++ BEFORE_DIR_TOKEN ++ b)%string BEFORE_DIR_TOKEN
      = Z.of_nat (String.length a) ->
      replaceAll (a ++ BEFORE_DIR_TOKEN ++ b)%string BEFORE_DIR_TOKEN
        (BEFORE_DIR_NAME K)
      = (a ++ BEFORE_DIR_NAME K
           ++ replaceAll b BEFORE_DIR_TOKEN (BEFORE_DIR_NAME K))%string) /\
   (forall t,
      includes t BEFORE_DIR_TOKEN = false ->
      replaceAll t BEFORE_DIR_TOKEN (BEFORE_DIR_NAME K) = t)).
Proof.
  intros lr dbg g s out tempDir tempInitDir. subst out tempDir tempInitDir.
  destruct (task_calls_after_scaffold fsops ext K lr dbg g s) as [rest Hrest].
  destruct (scaffold_calls fsops ext K (script g) (tempDir_of fsops K g s) dbg
              (prepared fsops K g s)) as (options & Hc & Hw).
  rewrite Hc in Hrest. cbn [prepared calls] in Hrest.
  split; [|split].
  - intros H. rewrite H in Hrest, Hw. exists options, rest.
    split; [|exact Hw]. rewrite Hrest, <- !app_assoc. reflexivity.
  - intros H. rewrite H in Hrest, Hw. exists options, rest.
    split; [|exact Hw]. rewrite Hrest, <- !app_assoc. reflexivity.
  - intros Hname.
    assert (Hp : forall t,
      replaceAll t BEFORE_DIR_TOKEN (BEFORE_DIR_NAME K)
      = plain_replaceAll t BEFORE_DIR_TOKEN (BEFORE_DIR_NAME K)).
    { intros t.
      exact (@replaceAll_plain t "{"%char "{beforeDir}}" (BEFORE_DIR_NAME K)
               Hname). }
    split.
    + intros a b H. rewrite !Hp. apply plain_leftmost. exact H.
    + intros t H. rewrite Hp. apply plain_none. exact H.
Qed.

(** C7.  In every builder the first external command after the
    snapshot is the installer, run in the init directory, and its flags
    are [--yes] followed by the flags derived from [expected.renderer]:
    [--type html] for the html renderer, [--type server] for the server
    renderer, and no extra flag for any other renderer. *)
Theorem builder_installer_flags : forall lr dbg g s s1 s2 r,
  (forall w, setRegistryURL_error ext (Some (LOCAL_REGISTRY_URL K)) w = None) ->
  run fsops ext (scaffold K (script g) (tempDir_of fsops K g s) dbg)
    (prepared fsops K g s) = (s1, Ok tt) ->
  perform fsops ext (snapshot_of fsops K g s) s1 = (s2, Ok r) ->
  (exists pre options rest,
     calls (fst (run fsops ext (generator_task K lr dbg g) s)) =
     calls s2 ++ pre
     ++ [ExecaCommand
           (sbCliBinaryPath K ++ " init "
            ++ join ("--yes" :: renderer_flags (expected g)) " ")%string
           options]
     ++ rest /\
     Forall not_a_command pre /\
     cwd options = Some (tempInitDir_of fsops K g s)) /\
  (renderer (expected g) = "@storybook/html" ->
   renderer_flags (expected g) = ["--type html"]) /\
  (renderer (expected g) = "@storybook/server" ->
   renderer_flags (expected g) = ["--type server"]) /\
  (renderer (expected g) <> "@storybook/html" ->
   renderer (expected g) <> "@storybook/server" ->
   renderer_flags (expected g) = []).
Proof.
  intros lr dbg g s s1 s2 r Hlocal H1 H2. split; [|repeat split].
  - destruct (@addStorybook_call FS fsops ext K (tempInitDir_of fsops K g s) lr
                (Some (renderer_flags (expected g))) dbg (dirName g) s2 Hlocal)
      as (pre & options & post & Hc & Hpre & Hw).
    rewrite generator_task_run, H1, H2.
    destruct (run fsops ext
                (addStorybook K (tempInitDir_of fsops K g s) lr
                   (Some (renderer_flags (expected g))) dbg (dirName g)) s2)
      as [s3 [[]|e]]; cbn [fst] in Hc |- *.
    + destruct (run_calls_extend fsops ext
                  (promote K g (tempDir_of fsops K g s)) s3) as [l Hl].
      exists pre, options, (post ++ l).
      split; [|split; [exact Hpre | exact Hw]].
      rewrite Hl, Hc, <- !app_assoc. reflexivity.
    + exists pre, options, post.
      split; [exact Hc | split; [exact Hpre | exact Hw]].
  - intros H. unfold renderer_flags. rewrite H. reflexivity.
  - intros H. unfold renderer_flags. rewrite H. reflexivity.
  - intros Ha Hb. unfold renderer_flags.
    apply String.eqb_neq in Ha, Hb. rewrite Ha, Hb. reflexivity.
Qed.

End BuilderClaims.

Lemma builder_scaffold_modes_witness :
  (exists options rest,
     calls (fst (run flat_fs Example.ext0
                   (generator_task Example.K0 false None Example.html)
                   Example.p0)) =
     ([EmptyDir "/repros/html-webpack/default"; TempDirectory;
      ExecaCommand "yarn create webpack5-html before" options] ++ rest)%list /\
     cwd options = Some "/tmp/sandbox") /\
  (exists options rest,
     calls (fst (run flat_fs Example.ext0
                   (generator_task Example.K0 false None Example.react)
                   Example.p0)) =
     ([EmptyDir "/repros/react-vite/default-ts"; TempDirectory;
      EnsureDir "/tmp/sandbox/before";
      ExecaCommand "npm create vite@latest --yes . -- --template react-ts"
        options] ++ rest)%list /\
     cwd options = Some "/tmp/sandbox/before").
Proof.
  split.
  - destruct (@builder_scaffold_modes FlatFS flat_fs Example.ext0 Example.K0
                false None Example.html Example.p0) as (Hsub & _).
    destruct (Hsub eq_refl) as (options & rest & Hcalls & Hcwd).
    exists options, rest. split; [exact Hcalls | exact Hcwd].
  - destruct (@builder_scaffold_modes FlatFS flat_fs Example.ext0 Example.K0
                false None Example.react Example.p0) as (_ & Hplain & _).
    destruct (Hplain eq_refl) as (options & rest & Hcalls & Hcwd).
    exists options, rest. split; [exact Hcalls | exact Hcwd].
Defined.

Lemma builder_installer_flags_witness :
  exists (s2 : Proc FlatFS) pre options rest,
    calls (fst (run flat_fs Example.ext0
                  (generator_task Example.K0 false None Example.html)
                  Example.p0)) =
    (calls s2 ++ pre
     ++ [ExecaCommand "/code/lib/cli/bin/index.js init --yes --type html" options]
     ++ rest)%list /\
    Forall not_a_command pre /\
    cwd options = Some "/tmp/sandbox/before".
Proof.
  edestruct (@builder_installer_flags FlatFS flat_fs Example.ext0 Example.K0
               false None Example.html Example.p0)
    as ((pre & options & rest & Hcalls & Hpre & Hcwd) & _).
  - intros w. reflexivity.
  - vm_compute. reflexivity.
  - vm_compute. reflexivity.
  - eexists. exists pre, options, rest.
    split; [exact Hcalls | split; [exact Hpre | exact Hcwd]].
Defined.
